(** * ETL-PySpark: the extract / transform / load pipeline and the data generator

    Shallow embedding of [etl_script.py] and [generate_user_data.py].

    The Python code is a thin layer over PySpark.  The Spark built-ins it
    calls ([spark.read.csv], [rlike], [regexp_extract], [from_unixtime],
    [to_date], [cast], the JDBC writer) are modelled by their documented
    behaviour under Spark 3 defaults (legacy, non-ANSI SQL mode;
    case-insensitive column resolution; permissive CSV parsing).  Spark
    plans are lazy: rows are computed when [save] runs.  In legacy mode
    the row-level built-ins used here never raise, so the errors of the
    extraction and of the transformation are those raised when the plan
    is built, and the stages are run eagerly here. *)

From Stdlib Require Import ZArith List String Ascii Bool Lia DecimalString.
Import ListNotations.

(** ** Regular expressions

    The two patterns of [transform_data] are kept as regular-expression
    terms and run by a derivative matcher.  Characters are bytes: every
    byte of a multi-byte UTF-8 sequence is at least 128, so [[^@]]
    accepts each byte of a code point outside ASCII, as it accepts the
    code point, and [[A-Za-z0-9.-]] rejects them, as it rejects the code
    point. *)
Module Regex.

Definition word := list ascii.

Inductive regex : Type :=
| Void
| Eps
| Class (p : ascii -> bool)
| Cat (r s : regex)
| Alt (r s : regex)
| Star (r : regex).

Definition Plus (r : regex) : regex := Cat r (Star r).
Definition Lit (c : ascii) : regex := Class (Ascii.eqb c).

Fixpoint nullable (r : regex) : bool :=
  match r with
  | Void => false
  | Eps => true
  | Class _ => false
  | Cat r s => nullable r && nullable s
  | Alt r s => nullable r || nullable s
  | Star _ => true
  end.

Fixpoint deriv (c : ascii) (r : regex) : regex :=
  match r with
  | Void => Void
  | Eps => Void
  | Class p => if p c then Eps else Void
  | Cat r s =>
      if nullable r then Alt (Cat (deriv c r) s) (deriv c s)
      else Cat (deriv c r) s
  | Alt r s => Alt (deriv c r) (deriv c s)
  | Star r => Cat (deriv c r) (Star r)
  end.

(** The whole word is in the language of [r]. *)
Fixpoint matches (r : regex) (w : word) : bool :=
  match w with
  | [] => nullable r
  | c :: w' => matches (deriv c r) w'
  end.

(** The longest prefix of [w] that is in the language of [r]. *)
Fixpoint longest_prefix (r : regex) (w : word) : option word :=
  match w with
  | [] => if nullable r then Some [] else None
  | c :: w' =>
      match longest_prefix (deriv c r) w' with
      | Some m => Some (c :: m)
      | None => if nullable r then Some [] else None
      end
  end.

(** [Matcher.find]: the text of the first match, scanning start
    positions from the left. *)
Fixpoint find (r : regex) (w : word) : option word :=
  match longest_prefix r w with
  | Some m => Some m
  | None =>
      match w with
      | [] => None
      | _ :: w' => find r w'
      end
  end.

(** The language of a regular expression, the reference the matcher is
    proved against. *)
Inductive lang : regex -> word -> Prop :=
| lang_eps : lang Eps []
| lang_class p c : p c = true -> lang (Class p) [c]
| lang_cat r s u v : lang r u -> lang s v -> lang (Cat r s) (u ++ v)
| lang_alt_l r s u : lang r u -> lang (Alt r s) u
| lang_alt_r r s u : lang s u -> lang (Alt r s) u
| lang_star_nil r : lang (Star r) []
| lang_star_cons r u v : lang r u -> lang (Star r) v -> lang (Star r) (u ++ v).

End Regex.

(** ** Python exceptions

    The exceptions the two scripts can meet, and the outcome of a call:
    it returns a value or raises. *)
Module Python.

Inductive Exception : Type :=
| AnalysisException (msg : string)
| Py4JJavaError (msg : string)
| FileNotFoundError (msg : string)
| IOError (msg : string)
| TypeError (msg : string)
| UnboundLocalError (msg : string)
| ValueError (msg : string)
| ZeroDivisionError (msg : string)
| AttributeError (msg : string)
| SystemExit (code : Z).

(** [str(e)] *)
Definition str (e : Exception) : string :=
  match e with
  | AnalysisException m | Py4JJavaError m | FileNotFoundError m
  | IOError m | TypeError m | UnboundLocalError m | ValueError m
  | ZeroDivisionError m | AttributeError m => m
  | SystemExit _ => EmptyString
  end.

Inductive result (A : Type) : Type :=
| Ok (a : A)
| Raise (e : Exception).
Arguments Ok {A} a.
Arguments Raise {A} e.

(** Membership in the classes named by the [except] clauses.
    [SystemExit] derives from [BaseException] only; [FileNotFoundError]
    is an [OSError], of which [IOError] is another name. *)
Definition is_Exception (e : Exception) : bool :=
  match e with
  | SystemExit _ => false
  | _ => true
  end.

Definition is_AnalysisException (e : Exception) : bool :=
  match e with
  | AnalysisException _ => true
  | _ => false
  end.

Definition is_FileNotFoundError (e : Exception) : bool :=
  match e with
  | FileNotFoundError _ => true
  | _ => false
  end.

Definition is_IOError (e : Exception) : bool :=
  match e with
  | IOError _ | FileNotFoundError _ => true
  | _ => false
  end.

Definition is_ValueError (e : Exception) : bool :=
  match e with
  | ValueError _ => true
  | _ => false
  end.

(** Python statements over a state [S]: a state transformer that
    returns or raises; a raised exception keeps the state reached so
    far. *)
Definition M (S A : Type) : Type := S -> result A * S.

Definition ret {S A} (a : A) : M S A := fun s => (Ok a, s).

Definition bind {S A B} (m : M S A) (k : A -> M S B) : M S B :=
  fun s =>
    match m s with
    | (Ok a, s') => k a s'
    | (Raise e, s') => (Raise e, s')
    end.

Definition raise {S A} (e : Exception) : M S A := fun s => (Raise e, s).

Definition lift {S A} (r : result A) : M S A := fun s => (r, s).

(** [try: body / except C as e: handler e], [catches] deciding
    membership in class [C]. *)
Definition try_except {S A} (body : M S A) (catches : Exception -> bool)
    (handler : Exception -> M S A) : M S A :=
  fun s =>
    match body s with
    | (Ok a, s') => (Ok a, s')
    | (Raise e, s') => if catches e then handler e s' else (Raise e, s')
    end.

(** A [try] with two [except] clauses, tried in order; an exception
    raised by a handler is not offered to the other clause. *)
Definition try_except_2 {S A} (body : M S A)
    (catches1 : Exception -> bool) (handler1 : Exception -> M S A)
    (catches2 : Exception -> bool) (handler2 : Exception -> M S A) : M S A :=
  fun s =>
    match body s with
    | (Ok a, s') => (Ok a, s')
    | (Raise e, s') =>
        if catches1 e then handler1 e s'
        else if catches2 e then handler2 e s'
        else (Raise e, s')
    end.

Notation "x <- m ;; k" := (bind m (fun x => k))
  (at level 61, m at next level, right associativity).
Notation "m ;; k" := (bind m (fun _ => k))
  (at level 61, right associativity).

Definition exit {S A} (code : Z) : M S A := raise (SystemExit code).

(** The completion status the interpreter reports for a script: 0 when
    it runs to its end, the code of a [SystemExit], 1 for any other
    exception that nothing caught. *)
Definition exit_status (r : result unit) : Z :=
  match r with
  | Ok _ => 0%Z
  | Raise (SystemExit code) => code
  | Raise _ => 1%Z
  end.

End Python.

(** ** Spark built-ins used by the pipeline *)
Module Spark.
Import Regex Python.
Local Open Scope Z_scope.

Definition chars (s : string) : word := list_ascii_of_string s.
Definition text (w : word) : string := string_of_list_ascii w.

(** A timestamp rendered as [yyyy-MM-dd HH:mm:ss], kept by fields. *)
Record datetime : Type := {
  dt_year : Z; dt_month : Z; dt_day : Z;
  dt_hour : Z; dt_minute : Z; dt_second : Z
}.

(** A cell of a frame.  [VTime] is the text that [from_unixtime]
    returns. *)
Inductive value : Type :=
| VNull
| VStr (s : string)
| VBool (b : bool)
| VInt (z : Z)
| VDate (year month day : Z)
| VTime (t : datetime).

Definition Row := list value.

Record DataFrame : Type := {
  columns : list string;
  rows : list Row
}.

(** *** Column expressions

    A column expression over one source column: the name it reads and
    what it computes from the cell.  Every column read by
    [transform_data] is a text column of the extracted frame, so the
    built-ins below are given on text and on null (null in, null out);
    cells of another type do not reach them. *)
Record Column : Type := {
  source : string;
  eval : value -> value
}.

Definition col (name : string) : Column :=
  {| source := name; eval := fun v => v |}.

(** [c.rlike("^R$")] for a pattern anchored at both ends: Java's [find]
    then succeeds exactly on a match of the whole text.  ([$] also
    matches before a final line terminator, but for a pattern ending in
    [[^@]+] that terminator can be absorbed by the last class, so the
    same texts are accepted.) *)
Definition rlike (c : Column) (anchored : regex) : Column :=
  {| source := source c;
     eval := fun v =>
       match eval c v with
       | VStr s => VBool (matches anchored (chars s))
       | _ => VNull
       end |}.

(** [regexp_extract(c, "x(G)", 1)] for a pattern made of one leading
    character followed by the group: group 1 is the match without its
    first character.  The first match is the leftmost one; for a greedy
    class repetition in last position it is the longest one there.  No
    match gives the empty string. *)
Definition regexp_extract_tail (c : Column) (pattern : regex) : Column :=
  {| source := source c;
     eval := fun v =>
       match eval c v with
       | VStr s =>
           match find pattern (chars s) with
           | Some (_ :: g) => VStr (text g)
           | _ => VStr EmptyString
           end
       | _ => VNull
       end |}.

(** *** String to integer ([UTF8String.toInt] / [toLong]) *)

(** The bytes trimmed from both ends before the digits are read: the
    white space and the ISO control characters, which among bytes are
    the codes up to 32 and 127 (a byte from 128 on is a negative number
    to Java, neither white space nor control). *)
Definition is_space (c : ascii) : bool :=
  ((nat_of_ascii c <=? 32) || (nat_of_ascii c =? 127))%nat.

Definition digit_of (c : ascii) : option Z :=
  let n := nat_of_ascii c in
  if ((48 <=? n) && (n <=? 57))%nat then Some (Z.of_nat n - 48) else None.

Definition is_digit (c : ascii) : bool :=
  match digit_of c with Some _ => true | None => false end.

Fixpoint drop_while (p : ascii -> bool) (w : word) : word :=
  match w with
  | [] => []
  | c :: w' => if p c then drop_while p w' else w
  end.

Definition trim (w : word) : word :=
  rev (drop_while is_space (rev (drop_while is_space w))).

(** Two's complement wrap-around of a [bits]-bit signed integer. *)
Definition wrap (bits : Z) (z : Z) : Z :=
  (z + 2 ^ (bits - 1)) mod 2 ^ bits - 2 ^ (bits - 1).

Definition min_value (bits : Z) : Z := - 2 ^ (bits - 1).

(** The digit loop.  The result is accumulated as a negative number so
    that the minimum value can be read; it stops at the decimal
    separator and returns what follows it. *)
Fixpoint int_part (bits : Z) (acc : Z) (w : word) : option (Z * word) :=
  match w with
  | [] => Some (acc, [])
  | c :: w' =>
      if Ascii.eqb c "." then Some (acc, w')
      else
        match digit_of c with
        | None => None
        | Some d =>
            if acc <? Z.quot (min_value bits) 10 then None
            else
              let acc' := wrap bits (acc * 10 - d) in
              if acc' >? 0 then None else int_part bits acc' w'
        end
  end.

Definition to_integral (bits : Z) (s : string) : option Z :=
  match trim (chars s) with
  | [] => None
  | b :: rest =>
      let negative := Ascii.eqb b "-" in
      let signed := negative || Ascii.eqb b "+" in
      match signed, rest with
      | true, [] => None
      | _, _ =>
          match int_part bits 0 (if signed then rest else b :: rest) with
          | None => None
          | Some (acc, fraction) =>
              if forallb is_digit fraction then
                if negative then Some acc
                else
                  let r := wrap bits (- acc) in
                  if r <? 0 then None else Some r
              else None
          end
      end
  end.

(** [c.cast("int")] in legacy mode: text that does not read as a 32-bit
    integer becomes null; nothing is raised. *)
Definition cast_int (c : Column) : Column :=
  {| source := source c;
     eval := fun v =>
       match eval c v with
       | VStr s =>
           match to_integral 32 s with
           | Some z => VInt z
           | None => VNull
           end
       | VInt z => VInt z
       | _ => VNull
       end |}.

(** *** Dates *)

(** Proleptic Gregorian date of a day count since 1970-01-01. *)
Definition civil_from_days (days : Z) : Z * Z * Z :=
  let z := days + 719468 in
  let era := z / 146097 in
  let doe := z - era * 146097 in
  let yoe := (doe - doe / 1460 + doe / 36524 - doe / 146096) / 365 in
  let doy := doe - (365 * yoe + yoe / 4 - yoe / 100) in
  let mp := (5 * doy + 2) / 153 in
  let d := doy - (153 * mp + 2) / 5 + 1 in
  let m := if mp <? 10 then mp + 3 else mp - 9 in
  let y := yoe + era * 400 + (if m <=? 2 then 1 else 0) in
  (y, m, d).

(** Wall-clock reading of an instant in a zone [offset] seconds east of
    UTC. *)
Definition local_datetime (offset : Z) (seconds : Z) : datetime :=
  let shifted := seconds + offset in
  let '(y, m, d) := civil_from_days (shifted / 86400) in
  let sod := shifted mod 86400 in
  {| dt_year := y; dt_month := m; dt_day := d;
     dt_hour := sod / 3600; dt_minute := (sod mod 3600) / 60;
     dt_second := sod mod 60 |}.

(** The instant that [from_unixtime] renders: the seconds are turned
    into microseconds by a 64-bit multiplication, which wraps around,
    and the microseconds are read back as whole seconds, rounded down. *)
Definition instant_of_seconds (sec : Z) : Z :=
  wrap 64 (sec * 1000000) / 1000000.

(** [from_unixtime(c)]: the argument is coerced to a 64-bit integer
    (text is read by [to_integral], a fraction is dropped) and rendered
    in the session time zone, here a fixed offset [tz]. *)
Definition from_unixtime (tz : Z) (c : Column) : Column :=
  {| source := source c;
     eval := fun v =>
       match eval c v with
       | VStr s =>
           match to_integral 64 s with
           | Some sec => VTime (local_datetime tz (instant_of_seconds sec))
           | None => VNull
           end
       | _ => VNull
       end |}.

(** [to_date(c)] on timestamp text: the date part. *)
Definition to_date (c : Column) : Column :=
  {| source := source c;
     eval := fun v =>
       match eval c v with
       | VTime t => VDate (dt_year t) (dt_month t) (dt_day t)
       | _ => VNull
       end |}.

(** *** Frames *)

Definition lower (c : ascii) : ascii :=
  let n := nat_of_ascii c in
  if ((65 <=? n) && (n <=? 90))%nat then ascii_of_nat (n + 32) else c.

Definition same_name (a b : string) : bool :=
  String.eqb (text (map lower (chars a))) (text (map lower (chars b))).

Fixpoint positions (name : string) (cols : list string) (i : nat) : list nat :=
  match cols with
  | [] => []
  | c :: cs =>
      if same_name name c then i :: positions name cs (S i)
      else positions name cs (S i)
  end.

(** Resolution of a column name against a schema, as the analyzer does
    it: names are compared without regard to case; no column, or more
    than one, is an analysis error. *)
Definition resolve (cols : list string) (name : string) : result nat :=
  match positions name cols 0 with
  | [] => Raise (AnalysisException ("cannot resolve column " ++ name))
  | [i] => Ok i
  | _ => Raise (AnalysisException ("reference is ambiguous: " ++ name))
  end.

Definition cell (i : nat) (r : Row) : value := nth i r VNull.

(** [df.filter(c)]: the rows on which [c] is true (not false, not
    null), in their order. *)
Definition df_filter (c : Column) (df : DataFrame) : result DataFrame :=
  match resolve (columns df) (source c) with
  | Raise e => Raise e
  | Ok i =>
      Ok {| columns := columns df;
            rows := filter (fun r =>
                      match eval c (cell i r) with
                      | VBool true => true
                      | _ => false
                      end) (rows df) |}
  end.

Fixpoint replace_named (name : string) (cols : list string) (r : Row)
    (v : value) : Row :=
  match cols, r with
  | c :: cs, x :: xs =>
      (if same_name name c then v else x) :: replace_named name cs xs v
  | _, _ => r
  end.

(** [df.withColumn(name, c)]: a column of that name is replaced in
    place (and takes the given spelling), otherwise the new column is
    added last. *)
Definition df_withColumn (name : string) (c : Column) (df : DataFrame)
    : result DataFrame :=
  match resolve (columns df) (source c) with
  | Raise e => Raise e
  | Ok i =>
      if existsb (same_name name) (columns df) then
        Ok {| columns := map (fun k => if same_name name k then name else k)
                             (columns df);
              rows := map (fun r =>
                        replace_named name (columns df) r (eval c (cell i r)))
                        (rows df) |}
      else
        Ok {| columns := columns df ++ [name];
              rows := map (fun r => r ++ [eval c (cell i r)]) (rows df) |}
  end.

(** *** Reading a CSV file

    Why a file cannot be read: its path does not exist, which Spark
    reports as an analysis error, or the read itself fails; [msg] is the
    text of the report. *)
Inductive ReadError : Type :=
| PathNotFound (msg : string)
| ReadFailed (msg : string).

Definition read_exception (why : ReadError) : Exception :=
  match why with
  | PathNotFound msg => AnalysisException msg
  | ReadFailed msg => Py4JJavaError msg
  end.

(** A file as the CSV tokenizer sees it: it cannot be read, it holds no
    line, or it holds a header line and records.  A field of a record is
    text, or null when it is empty; an empty name of the header is the
    empty string. *)
Inductive SourceFile : Type :=
| Unreadable (why : ReadError)
| Blank
| Lines (header : list string) (body : list (list (option string))).

Definition text_cell (f : option string) : value :=
  match f with
  | Some s => VStr s
  | None => VNull
  end.

(** The decimal digits of a position in the header. *)
Definition decimal (n : nat) : string :=
  NilZero.string_of_uint (Nat.to_uint n).

(** [CSVUtils.makeSafeHeader], names being compared without regard to
    case: a name that is empty becomes [_c] followed by its position,
    and a name that the header holds more than once gets its position
    as a suffix; the others are kept. *)
Fixpoint safe_names (row rest : list string) (index : nat) : list string :=
  match rest with
  | [] => []
  | value :: rest' =>
      (if String.eqb value "" then ("_c" ++ decimal index)%string
       else if (2 <=? List.length (positions value row 0))%nat
            then (value ++ decimal index)%string
            else value)
      :: safe_names row rest' (S index)
  end.

Definition makeSafeHeader (row : list string) : list string :=
  safe_names row row 0.

(** Permissive mode: a record is cut or padded with nulls to the width
    of the header. *)
Fixpoint conform (n : nat) (fields : list (option string)) : Row :=
  match n with
  | O => []
  | S n' =>
      match fields with
      | [] => VNull :: conform n' []
      | f :: fs => text_cell f :: conform n' fs
      end
  end.

(** [spark.read.csv(path, header=True, inferSchema=False)]. *)
Definition read_csv (f : SourceFile) : result DataFrame :=
  match f with
  | Unreadable why => Raise (read_exception why)
  | Blank => Ok {| columns := []; rows := [] |}
  | Lines header body =>
      Ok {| columns := makeSafeHeader header;
            rows := map (conform (List.length header)) body |}
  end.

(** *** The JDBC sink, append mode

    A stored row keeps the column names it was written under.  Spark
    writes each partition of the frame in a transaction of its own, so
    the destination either takes every row, or the write fails and the
    table keeps the rows of the partitions that were committed by then
    and none of the others: [committed] marks them, row by row (all
    marks false when the only partition was rolled back). *)
Definition DbRow := list (string * value).

Definition db_rows (df : DataFrame) : list DbRow :=
  map (fun r => combine (columns df) r) (rows df).

Fixpoint kept (committed : list bool) (l : list DbRow) : list DbRow :=
  match committed, l with
  | b :: committed', x :: l' =>
      if b then x :: kept committed' l' else kept committed' l'
  | _, _ => []
  end.

Definition jdbc_append (fault : option (list bool)) (df : DataFrame)
    (table : list DbRow) : result unit * list DbRow :=
  match fault with
  | None => (Ok tt, table ++ db_rows df)
  | Some committed =>
      (Raise (Py4JJavaError "An error occurred while calling save"),
       table ++ kept committed (db_rows df))
  end.

End Spark.

(** ** etl_script.py *)
Module Etl.
Import Regex Python Spark.
Local Open Scope string_scope.

(** *** What a run sees and what it changes *)

(** The surroundings of a run, which it only reads: the file system, the
    time zone of the Spark session (seconds east of UTC), how the
    destination will answer the write, the process environment after
    [load_dotenv], and the secret files ([secrets p] is the content of
    file [p] without surrounding whitespace). *)
Record World : Type := {
  files : string -> SourceFile;
  session_tz : Z;
  db_fault : option (list bool);
  environ : string -> option string;
  secrets : string -> option string
}.

Inductive SessionState : Type := NoSession | Active | Stopped.

Inductive Level : Type := INFO | ERROR.

Record State : Type := {
  session : SessionState;
  table : list DbRow;
  log : list (Level * string);
  stdout : list string
}.

Definition M : Type -> Type := Python.M State.

Definition emit (l : Level) (msg : string) : M unit :=
  fun s => (Ok tt, {| session := session s; table := table s;
                      log := log s ++ [(l, msg)]; stdout := stdout s |}).

Definition logging_info : string -> M unit := emit INFO.
Definition logging_error : string -> M unit := emit ERROR.

Definition print (line : string) : M unit :=
  fun s => (Ok tt, {| session := session s; table := table s;
                      log := log s; stdout := stdout s ++ [line] |}).

Definition set_session (x : SessionState) : M unit :=
  fun s => (Ok tt, {| session := x; table := table s;
                      log := log s; stdout := stdout s |}).

(** Rendering of a possibly missing value in an f-string. *)
Definition fmt (o : option string) : string :=
  match o with
  | Some s => s
  | None => "None"
  end.

(** *** The functions of the script *)

Definition get_postgres_password (w : World) (secret_path : option string)
    : M string :=
  try_except
    (match secret_path with
     | None =>
         raise (TypeError "expected str, bytes or os.PathLike object, not NoneType")
     | Some p =>
         match secrets w p with
         | Some password => ret password
         | None => raise (FileNotFoundError ("No such file or directory: " ++ p))
         end
     end)
    is_FileNotFoundError
    (fun _ =>
       print "Error: PostgreSQL password secret not found." ;;
       exit 1).

Definition extract_data (w : World) (input_file : string) : M DataFrame :=
  try_except
    (df <- lift (read_csv (files w input_file)) ;;
     logging_info ("Successfully loaded " ++ input_file ++ " into a DataFrame.") ;;
     ret df)
    is_Exception
    (fun e =>
       logging_error ("Error loading data from " ++ input_file ++ ": " ++ str e) ;;
       raise e).

Definition not_at (c : ascii) : bool := negb (Ascii.eqb c "@").

(** [[A-Za-z0-9.-]] *)
Definition domain_char (c : ascii) : bool :=
  let n := nat_of_ascii c in
  ((65 <=? n) && (n <=? 90) || (97 <=? n) && (n <=? 122)
   || (48 <=? n) && (n <=? 57))%nat
  || Ascii.eqb c "." || Ascii.eqb c "-".

(** [^[^@]+@[^@]+\.[^@]+$], between its anchors. *)
Definition email_pattern : regex :=
  Cat (Plus (Class not_at))
    (Cat (Lit "@")
       (Cat (Plus (Class not_at))
          (Cat (Lit ".") (Plus (Class not_at))))).

(** [@([A-Za-z0-9.-]+)] *)
Definition domain_pattern : regex :=
  Cat (Lit "@") (Plus (Class domain_char)).

Definition and_then {A B} (r : result A) (k : A -> result B) : result B :=
  match r with
  | Ok a => k a
  | Raise e => Raise e
  end.

(** The chain of frame operations in the body of [transform_data]. *)
Definition transformed (tz : Z) (df : DataFrame) : result DataFrame :=
  and_then (df_filter (rlike (col "email") email_pattern) df) (fun df =>
  and_then (df_withColumn "signup_date"
              (to_date (from_unixtime tz (col "signup_date"))) df) (fun df =>
  and_then (df_withColumn "domain"
              (regexp_extract_tail (col "email") domain_pattern) df) (fun df =>
  df_withColumn "user_id" (cast_int (col "user_id")) df))).

Definition transform_data (w : World) (df : DataFrame) : M DataFrame :=
  try_except
    (lift (transformed (session_tz w) df))
    is_AnalysisException
    (fun e =>
       logging_error ("Error during data transformation: " ++ str e) ;;
       raise e).

(** [df.write.format("jdbc").options(url=..., driver=..., dbtable=...,
    user=..., password=...).mode('append').save()]: an option whose
    value is [None] reaches Spark as a null, on which [save] fails
    before it connects; the password is always text.  Otherwise the
    destination answers as the world says. *)
Definition save (w : World) (df : DataFrame)
    (jdbc_url table_name username : option string) (password : string)
    : M unit :=
  fun s =>
    match jdbc_url, table_name, username with
    | Some _, Some _, Some _ =>
        let '(r, t) := jdbc_append (db_fault w) df (table s) in
        (r, {| session := session s; table := t;
               log := log s; stdout := stdout s |})
    | _, _, _ =>
        (Raise (Py4JJavaError "An error occurred while calling save"), s)
    end.

Definition load_data_to_postgresql (w : World) (df : DataFrame)
    (jdbc_url table_name username : option string) (password : string)
    : M unit :=
  try_except
    (save w df jdbc_url table_name username password ;;
     logging_info ("Successfully loaded data into " ++ fmt table_name ++ "."))
    is_Exception
    (fun e =>
       logging_error ("Error loading data to PostgreSQL: " ++ str e) ;;
       raise e).

Definition etl_pipeline (w : World) (input_file : string)
    (jdbc_url table_name username : option string) (password : string)
    : M unit :=
  set_session Active ;;
  df <- extract_data w input_file ;;
  df <- transform_data w df ;;
  load_data_to_postgresql w df jdbc_url table_name username password ;;
  print "ETL process completed successfully." ;;
  set_session Stopped.

(** The body of [if __name__ == "__main__":]. *)
Definition main (w : World) : M unit :=
  let JDBC_URL := environ w "JDBC_URL" in
  let POSTGRES_USER := environ w "POSTGRES_USER" in
  let POSTGRES_TABLE := environ w "POSTGRES_TABLE" in
  let SECRET_PATH := environ w "SECRET_POSTGRES_PASSWORD_PATH" in
  POSTGRES_PASSWORD <- get_postgres_password w SECRET_PATH ;;
  print ("Connecting to DB " ++ fmt POSTGRES_TABLE ++ " as " ++ fmt POSTGRES_USER) ;;
  let input_file := "data.csv" in
  try_except
    (etl_pipeline w input_file JDBC_URL POSTGRES_TABLE POSTGRES_USER
       POSTGRES_PASSWORD)
    is_Exception
    (fun e => logging_error ("ETL process failed: " ++ str e)).

Definition initial (t : list DbRow) : State :=
  {| session := NoSession; table := t; log := []; stdout := [] |}.

End Etl.

(** ** generate_user_data.py *)
Module Generator.
Import Python.
Local Open Scope Z_scope.

(** The Faker library: a generator state of type [F] and the three
    calls made on it.  A time stamp is a float, of type [stamp]. *)
Class FakerLib (F stamp : Type) : Type := {
  fake_name : F -> string * F;
  fake_unique_ascii_free_email : F -> result string * F;
  fake_date_time_between : string -> string -> F -> result stamp * F
}.

Section Script.
Context {F stamp : Type} {lib : FakerLib F stamp}.

(** A line of the CSV file. *)
Inductive Line : Type :=
| Header (names : list string)
| Record (user_id : Z) (name email : string) (signup_date : stamp).

(** A line printed on the terminal. *)
Inductive Message : Type :=
| Generated (user_id num_records : Z)
| FileGenerated (csv_filename : string) (num_records : Z)
| IoErrorWriting (csv_filename : string) (e : Exception)
| ValueErrorInData (e : Exception).

(** [disk p] is the content of file [p], if it exists; [locked p]
    tells that [p] cannot be opened for writing. *)
Record State : Type := {
  disk : string -> option (list Line);
  locked : string -> bool;
  screen : list Message;
  faker : F
}.

Definition G : Type -> Type := M State.

Definition print (m : Message) : G unit :=
  fun s => (Ok tt, {| disk := disk s; locked := locked s;
                      screen := screen s ++ [m]; faker := faker s |}).

Definition with_faker {A} (call : F -> A * F) : G A :=
  fun s =>
    let '(a, f) := call (faker s) in
    (Ok a, {| disk := disk s; locked := locked s;
              screen := screen s; faker := f |}).

Definition set_file (p : string) (lines : list Line) : G unit :=
  fun s => (Ok tt, {| disk := fun q => if String.eqb q p then Some lines
                                       else disk s q;
                      locked := locked s;
                      screen := screen s; faker := faker s |}).

(** [open(p, mode='w')]: the file is created or emptied. *)
Definition open_w (p : string) : G unit :=
  fun s =>
    if locked s p then (Raise (IOError "Permission denied"), s)
    else set_file p [] s.

(** [writer.writerow(...)] on the file opened at [p]. *)
Definition writerow (p : string) (l : Line) : G unit :=
  fun s =>
    match disk s p with
    | Some lines => set_file p (lines ++ [l]) s
    | None => (Raise (ValueError "I/O operation on closed file."), s)
    end.

(** [a % b] on integers; the text of the error depends on the version
    of the interpreter. *)
Definition py_mod (a b : Z) : G Z :=
  if b =? 0 then raise (ZeroDivisionError "integer modulo by zero")
  else ret (a mod b).

(** [range(start, stop)] *)
Definition range (start stop : Z) : list Z :=
  map (fun i => start + Z.of_nat i) (seq 0 (Z.to_nat (stop - start))).

Definition create_fake_user_data (start_date end_date : string)
    : G (string * string * stamp) :=
  name <- with_faker fake_name ;;
  r <- with_faker fake_unique_ascii_free_email ;;
  email <- lift r ;;
  r <- with_faker (fake_date_time_between start_date end_date) ;;
  signup_date <- lift r ;;
  ret (name, email, signup_date).

(** The [for user_id in record_iterator] loop.  [progress_threshold]
    is bound only when tqdm is absent. *)
Fixpoint for_user_id (USE_TQDM : bool) (progress_threshold : option Z)
    (csv_filename : string) (num_records : Z)
    (start_date end_date : string) (record_iterator : list Z) : G unit :=
  match record_iterator with
  | [] => ret tt
  | user_id :: rest =>
      (if negb USE_TQDM then
         match progress_threshold with
         | Some t =>
             r <- py_mod user_id t ;;
             if r =? 0 then print (Generated user_id num_records)
             else ret tt
         | None =>
             raise (UnboundLocalError
                      "local variable 'progress_threshold' referenced before assignment")
         end
       else ret tt) ;;
      row <- create_fake_user_data start_date end_date ;;
      let '(name, email, signup_date) := row in
      writerow csv_filename (Record user_id name email signup_date) ;;
      for_user_id USE_TQDM progress_threshold csv_filename num_records
        start_date end_date rest
  end.

Definition write_to_csv (USE_TQDM : bool) (csv_filename : string)
    (num_records : Z) (start_date end_date : string) : G unit :=
  try_except_2
    (open_w csv_filename ;;
     writerow csv_filename
       (Header ["user_id"; "name"; "email"; "signup_date"]%string) ;;
     let record_iterator := range 1 (num_records + 1) in
     let progress_threshold :=
       if USE_TQDM then None else Some (num_records / 10) in
     for_user_id USE_TQDM progress_threshold csv_filename num_records
       start_date end_date record_iterator ;;
     print (FileGenerated csv_filename num_records))
    is_IOError (fun e => print (IoErrorWriting csv_filename e))
    is_ValueError (fun e => print (ValueErrorInData e)).

End Script.
End Generator.

(** ** Vocabulary of the statements *)
Module Views.
Import Regex Python Spark Etl.
Local Open Scope string_scope.
Local Open Scope list_scope.

(** A record of the input file: its four fields, text or null. *)
Record RawRecord : Type := {
  user_id : option string;
  name : option string;
  email : option string;
  signup_date : option string
}.

Definition expected_header : list string :=
  ["user_id"; "name"; "email"; "signup_date"].

Definition fields (r : RawRecord) : list (option string) :=
  [user_id r; name r; email r; signup_date r].


Definition file_of (rs : list RawRecord) : SourceFile :=
  Lines expected_header (map fields rs).

(** The frame extraction makes of that file. *)
Definition frame_of (rs : list RawRecord) : DataFrame :=
  {| columns := expected_header;
     rows := map (fun r => map text_cell (fields r)) rs |}.

(** The shape rule in the words of the specification: one or more
    characters other than [@], an [@], one or more characters other
    than [@], a dot, one or more characters other than [@]. *)
Definition email_shape (w : word) : Prop :=
  exists l x y,
    w = l ++ "@"%char :: x ++ "."%char :: y
    /\ l <> [] /\ x <> [] /\ y <> []
    /\ forallb not_at l = true /\ forallb not_at x = true
    /\ forallb not_at y = true.

(** A record passes validation. *)
Definition valid_email (r : RawRecord) : bool :=
  match email r with
  | Some s => matches email_pattern (chars s)
  | None => false
  end.

(** A cell passes validation: it is text that the pattern accepts. *)
Definition email_passes (v : value) : bool :=
  match v with
  | VStr s => matches email_pattern (chars s)
  | _ => false
  end.

(** What follows the first [@] of a word. *)
Fixpoint after_at (w : word) : word :=
  match w with
  | [] => []
  | c :: w' => if Ascii.eqb c "@"%char then w' else after_at w'
  end.

Fixpoint take_while (p : ascii -> bool) (w : word) : word :=
  match w with
  | [] => []
  | c :: w' => if p c then c :: take_while p w' else []
  end.

(** The domain in the words of the specification: everything after the
    [@] that is made of letters, digits, dots and hyphens. *)
Definition domain_of (s : string) : string :=
  text (take_while domain_char (after_at (chars s))).

(** An integer literal in the words of the specification: decimal
    digits, after an optional sign; [decimal_value a w] reads the digits
    [w] after a prefix of value [a]. *)
Fixpoint decimal_value (a : Z) (w : word) : option Z :=
  match w with
  | [] => Some a
  | c :: w' =>
      match digit_of c with
      | Some d => decimal_value (a * 10 + d) w'
      | None => None
      end
  end.

Definition integer_literal (s : string) : option Z :=
  match chars s with
  | [] => None
  | c :: w =>
      if Ascii.eqb c "-"%char then
        match w with
        | [] => None
        | _ => option_map Z.opp (decimal_value 0 w)
        end
      else if Ascii.eqb c "+"%char then
        match w with
        | [] => None
        | _ => decimal_value 0 w
        end
      else decimal_value 0 (c :: w)
  end.

(** The three column expressions of [transform_data], on a cell. *)
Definition coerce_user_id (v : value) : value :=
  eval (cast_int (col "user_id")) v.

Definition convert_signup_date (tz : Z) (v : value) : value :=
  eval (to_date (from_unixtime tz (col "signup_date"))) v.

Definition extract_domain (v : value) : value :=
  eval (regexp_extract_tail (col "email") domain_pattern) v.

(** The row [transform_data] makes of a record. *)
Definition transformed_row (tz : Z) (r : RawRecord) : Row :=
  [coerce_user_id (text_cell (user_id r));
   text_cell (name r);
   text_cell (email r);
   convert_signup_date tz (text_cell (signup_date r));
   extract_domain (text_cell (email r))].

Definition transformed_frame (tz : Z) (rs : list RawRecord) : DataFrame :=
  {| columns := expected_header ++ ["domain"];
     rows := map (transformed_row tz) (filter valid_email rs) |}.

(** The state in which [main] calls the pipeline, and that call. *)
Definition announced (w : World) (s : State) : State :=
  snd (Etl.print ("Connecting to DB " ++ fmt (environ w "POSTGRES_TABLE")
                  ++ " as " ++ fmt (environ w "POSTGRES_USER"))%string s).

Definition pipeline_of_main (w : World) (password : string) (s : State)
    : result unit * State :=
  etl_pipeline w "data.csv" (environ w "JDBC_URL")
    (environ w "POSTGRES_TABLE") (environ w "POSTGRES_USER") password
    (announced w s).


End Views.

(** ** generate_user_data.py: the functions around [write_to_csv] *)
Module Cli.
Import Python Generator.

(** [faker.Faker(locale=...)]: a new generator for the locales named,
    or the exception that Faker raises when it does not have one of
    them (an [AttributeError]). *)
Class FakerModule (F : Type) : Type := {
  Faker : list string -> result F
}.

Section Script.
Context {F stamp : Type} {lib : FakerLib F stamp} {module : FakerModule F}.

(** A line printed by these functions, kept apart from the lines of
    [write_to_csv]. *)
Inductive Note : Type :=
| Asked (csv_filename : string)
| Aborted
| ArgumentError (e : Exception)
| UnexpectedError (e : Exception).

Record Console : Type := {
  base : @State F stamp;
  notes : list Note
}.

Definition C : Type -> Type := M Console.

Definition note (n : Note) : C unit :=
  fun c => (Ok tt, {| base := base c; notes := notes c ++ [n] |}).

(** A call of a function of the writer. *)
Definition on_base {A} (m : G A) : C A :=
  fun c =>
    let '(r, s) := m (base c) in
    (r, {| base := s; notes := notes c |}).

(** [os.path.exists(p)] *)
Definition path_exists (p : string) : C bool :=
  fun c =>
    (Ok (match disk (base c) p with Some _ => true | None => false end), c).

(** [confirm] is what the operator types at the prompt, stripped and in
    lower case. *)
Definition check_and_confirm_file_overwrite (confirm csv_filename : string)
    : C bool :=
  found <- path_exists csv_filename ;;
  if found then
    note (Asked csv_filename) ;;
    if negb (String.eqb confirm "y") then
      note Aborted ;;
      ret false
    else ret true
  else ret true.

(** The console once the script holds the generator [fake]. *)
Definition holding (fake : F) (c : Console) : Console :=
  {| base := {| disk := disk (base c); locked := locked (base c);
                screen := screen (base c); faker := fake |};
     notes := notes c |}.

(** [fake = faker.Faker(locale=locale)]: the generator built is the one
    that the writer is given. *)
Definition new_Faker (locale : list string) : C unit :=
  fun c =>
    match Faker locale with
    | Ok fake => (Ok tt, holding fake c)
    | Raise e => (Raise e, c)
    end.

Definition generate_fake_user_csv (USE_TQDM : bool) (confirm : string)
    (csv_filename : string) (num_records : Z) (start_date end_date : string)
    (locale : list string) : C unit :=
  new_Faker locale ;;
  go <- check_and_confirm_file_overwrite confirm csv_filename ;;
  if go then
    on_base (write_to_csv USE_TQDM csv_filename num_records start_date end_date)
  else ret tt.

(** The body of [if __name__ == "__main__":], after the arguments have
    been parsed. *)
Definition main (USE_TQDM : bool) (confirm : string)
    (csv_filename : string) (num_records : Z) (start_date end_date : string)
    (locale : list string) : C unit :=
  try_except_2
    (generate_fake_user_csv USE_TQDM confirm csv_filename num_records
       start_date end_date locale)
    is_ValueError (fun e => note (ArgumentError e))
    is_Exception (fun e => note (UnexpectedError e)).

End Script.
End Cli.

(** ** Sample inputs *)
Module Samples.
Import Regex Python Spark Etl Views.
Local Open Scope string_scope.
Local Open Scope list_scope.

Definition record (u n e d : string) : RawRecord :=
  {| user_id := Some u; name := Some n; email := Some e;
     signup_date := Some d |}.

Definition environment (key : string) : option string :=
  if String.eqb key "JDBC_URL" then Some "jdbc:postgresql://db:5432/etl"
  else if String.eqb key "POSTGRES_USER" then Some "etl"
  else if String.eqb key "POSTGRES_TABLE" then Some "users"
  else if String.eqb key "SECRET_POSTGRES_PASSWORD_PATH"
       then Some "/run/secrets/postgres_password"
  else None.

(** A world whose [data.csv] is the given file, with a session in the
    zone [tz] and a destination that takes every row. *)
Definition world (data_csv : SourceFile) (tz : Z) : World :=
  {| files := fun p => if String.eqb p "data.csv" then data_csv
                       else Unreadable (PathNotFound "Path does not exist");
     session_tz := tz;
     db_fault := None;
     environ := environment;
     secrets := fun p =>
       if String.eqb p "/run/secrets/postgres_password" then Some "s3cret"
       else None |}.

(** No [data.csv] in the working directory. *)
Definition missing : SourceFile :=
  Unreadable (PathNotFound "Path does not exist: file:/app/data.csv").

Definition ann : RawRecord := record "1" "Ann" "ann@example.com" "1700000000".
Definition bob : RawRecord := record "abc" "Bob" "bob@example.com" "1700000000".




(** A stand-in for Faker: the state counts the calls. *)
Definition counting_faker : Generator.FakerLib nat Z :=
  {| Generator.fake_name := fun n => ("Ann", S n);
     Generator.fake_unique_ascii_free_email :=
       fun n => (Ok "ann@example.com", S n);
     Generator.fake_date_time_between :=
       fun _ _ n => (Ok 1700000000%Z, S n) |}.

(** A stand-in for the constructor of Faker, which has the locale
    [en_US] only. *)
Definition fresh_counter : Cli.FakerModule nat :=
  {| Cli.Faker := fun locale =>
       if forallb (String.eqb "en_US") locale then Ok 0%nat
       else Raise (AttributeError "Invalid configuration for faker locale") |}.

End Samples.

(** ** Vocabulary of the further properties *)
Module Shapes.
Import Regex Python Spark Etl Views.
Local Open Scope string_scope.
Local Open Scope list_scope.

(** Every row has one cell for each column. *)
Definition rectangular (df : DataFrame) : Prop :=
  Forall (fun r => List.length r = List.length (columns df)) (rows df).

(** Exactly one column answers to the name. *)
Definition unique_column (cols : list string) (name : string) : bool :=
  match positions name cols 0 with
  | [_] => true
  | _ => false
  end.

(** The columns [transform_data] reads are there. *)
Definition transformable (cols : list string) : bool :=
  unique_column cols "email" && unique_column cols "signup_date"
  && unique_column cols "user_id".

(** The spelling [transform_data] gives to a column name. *)
Definition written_name (c : string) : string :=
  if same_name "user_id" c then "user_id"
  else if same_name "domain" c then "domain"
  else if same_name "signup_date" c then "signup_date"
  else c.

(** What [transform_data] puts in column [c], for a row [r] in which the
    email is in cell [i] and the column is cell [j]. *)
Definition new_cell (tz : Z) (i j : nat) (c : string) (r : Row) : value :=
  if same_name "user_id" c then coerce_user_id (cell j r)
  else if same_name "domain" c then extract_domain (cell i r)
  else if same_name "signup_date" c then convert_signup_date tz (cell j r)
  else cell j r.

(** A run of digits that is not empty. *)
Definition is_number (w : word) : bool :=
  match w with
  | [] => false
  | _ => forallb is_digit w
  end.

(** The identifier of a record line of the generated file. *)
Definition line_id {stamp : Type} (l : @Generator.Line stamp) : option Z :=
  match l with
  | Generator.Header _ => None
  | Generator.Record i _ _ _ => Some i
  end.

(** The identifiers at which [write_to_csv] prints its progress. *)
Definition progress_ids (USE_TQDM : bool) (num_records : Z) : list Z :=
  if USE_TQDM then []
  else filter (fun i => (i mod (num_records / 10) =? 0)%Z)
              (Generator.range 1 (num_records + 1)).

(** Faker answers every call. *)
Definition dependable {F stamp : Type} (lib : Generator.FakerLib F stamp)
    : Prop :=
  (forall f, exists e f',
      Generator.fake_unique_ascii_free_email f = (Ok e, f'))
  /\ (forall a b f, exists t f',
        Generator.fake_date_time_between a b f = (Ok t, f')).

End Shapes.

(** * Proofs *)

Import Regex Python Spark Etl Views Samples.

(** ** The matcher and the language of an expression *)

Ltac cat_cons :=
  match goal with
  | |- lang _ (?c :: ?u ++ ?v) =>
      change (c :: u ++ v) with ((c :: u) ++ v); constructor
  end.

Section MatcherCorrect.

Lemma nullable_lang r : nullable r = true <-> lang r [].
Proof.
  split.
  - induction r; simpl; intro H; try discriminate.
    + constructor.
    + apply andb_true_iff in H as [H1 H2].
      change (@nil ascii) with (@nil ascii ++ []). constructor; auto.
    + apply orb_true_iff in H as [H | H];
        [apply lang_alt_l | apply lang_alt_r]; auto.
    + constructor.
  - intro H. remember [] as w eqn:E.
    induction H; simpl; try discriminate; auto.
    + apply app_eq_nil in E as [-> ->]. rewrite IHlang1, IHlang2; auto.
    + rewrite IHlang; auto.
    + rewrite IHlang, orb_true_r; auto.
Qed.

Lemma star_cons_inv r c w :
  lang (Star r) (c :: w) ->
  exists u v, w = u ++ v /\ lang r (c :: u) /\ lang (Star r) v.
Proof.
  intro H. remember (Star r) as s eqn:Es. remember (c :: w) as cw eqn:Ew.
  induction H; try discriminate.
  injection Es as ->. destruct u as [| a u].
  - simpl in Ew. auto.
  - simpl in Ew. injection Ew as -> <-. eauto.
Qed.

Lemma lang_void_inv w : lang Void w -> False.
Proof. intro H; inversion H. Qed.

Lemma lang_eps_inv w : lang Eps w -> w = [].
Proof. intro H; inversion H; reflexivity. Qed.

Lemma lang_class_inv p w : lang (Class p) w -> exists c, w = [c] /\ p c = true.
Proof. intro H; inversion H; subst; eauto. Qed.

Lemma lang_cat_inv r s w :
  lang (Cat r s) w -> exists u v, w = u ++ v /\ lang r u /\ lang s v.
Proof. intro H; inversion H; subst; eauto. Qed.

Lemma lang_alt_inv r s w : lang (Alt r s) w -> lang r w \/ lang s w.
Proof. intro H; inversion H; subst; auto. Qed.

Lemma deriv_lang c r : forall w, lang (deriv c r) w <-> lang r (c :: w).
Proof.
  induction r; intro w; simpl.
  - split; intro H; inversion H.
  - split; intro H; inversion H.
  - split; intro H.
    + destruct (p c) eqn:Ep.
      * apply lang_eps_inv in H as ->. constructor; auto.
      * destruct (lang_void_inv _ H).
    + apply lang_class_inv in H as (a & E & Ha). injection E as -> ->.
      rewrite Ha. constructor.
  - split; intro H.
    + destruct (nullable r1) eqn:En.
      * apply lang_alt_inv in H as [H | H].
        -- apply lang_cat_inv in H as (u & v & -> & Hu & Hv).
           apply IHr1 in Hu. cat_cons; auto.
        -- apply IHr2 in H. apply nullable_lang in En.
           change (c :: w) with ([] ++ c :: w). constructor; auto.
      * apply lang_cat_inv in H as (u & v & -> & Hu & Hv).
        apply IHr1 in Hu. cat_cons; auto.
    + apply lang_cat_inv in H as (u & v & E & Hu & Hv).
      destruct u as [| a u]; simpl in E.
      * subst v. apply nullable_lang in Hu. rewrite Hu.
        apply lang_alt_r. apply IHr2; auto.
      * injection E as <- ->. apply IHr1 in Hu.
        destruct (nullable r1); [apply lang_alt_l |]; constructor; auto.
  - split; intro H.
    + apply lang_alt_inv in H as [H | H];
        [apply lang_alt_l, IHr1 | apply lang_alt_r, IHr2]; auto.
    + apply lang_alt_inv in H as [H | H];
        [apply lang_alt_l, IHr1 | apply lang_alt_r, IHr2]; auto.
  - split; intro H.
    + apply lang_cat_inv in H as (u & v & -> & Hu & Hv).
      apply IHr in Hu. cat_cons; auto.
    + apply star_cons_inv in H as (u & v & -> & Hu & Hv).
      constructor; auto. apply IHr; auto.
Qed.

Lemma matches_lang : forall w r, matches r w = true <-> lang r w.
Proof.
  induction w as [| c w IH]; intro r; simpl.
  - apply nullable_lang.
  - rewrite IH. apply deriv_lang.
Qed.

End MatcherCorrect.

(** ** The two patterns *)

Section Patterns.
Local Open Scope char_scope.

Lemma lang_star_class p w : lang (Star (Class p)) w <-> forallb p w = true.
Proof.
  split.
  - intro H. remember (Star (Class p)) as r eqn:E.
    induction H; try discriminate; auto.
    injection E as ->. apply lang_class_inv in H as (c & -> & Hc).
    simpl. rewrite Hc. auto.
  - induction w as [| c w IH]; simpl; intro H.
    + constructor.
    + apply andb_true_iff in H as [Hc Hw].
      change (c :: w) with ([c] ++ w). constructor; auto.
      constructor; auto.
Qed.

Lemma lang_plus_class p w :
  lang (Plus (Class p)) w <-> w <> [] /\ forallb p w = true.
Proof.
  unfold Plus. split.
  - intro H. apply lang_cat_inv in H as (u & v & -> & Hu & Hv).
    apply lang_class_inv in Hu as (c & -> & Hc).
    apply lang_star_class in Hv. simpl. rewrite Hc. split; [discriminate | auto].
  - intros [Hne H]. destruct w as [| c w]; [congruence |].
    simpl in H. apply andb_true_iff in H as [Hc Hw].
    change (c :: w) with ([c] ++ w). constructor.
    + constructor; auto.
    + apply lang_star_class; auto.
Qed.

Lemma lang_lit c w : lang (Lit c) w <-> w = [c].
Proof.
  unfold Lit. split.
  - intro H. apply lang_class_inv in H as (a & -> & Ha).
    apply Ascii.eqb_eq in Ha. congruence.
  - intros ->. constructor. apply Ascii.eqb_refl.
Qed.

(** The email pattern accepts exactly the words of the shape the
    specification describes. *)
Lemma email_pattern_shape w :
  matches email_pattern w = true <-> email_shape w.
Proof.
  rewrite matches_lang. unfold email_pattern, email_shape. split.
  - intro H.
    apply lang_cat_inv in H as (l & w1 & -> & Hl & H).
    apply lang_cat_inv in H as (a & w2 & -> & Ha & H).
    apply lang_cat_inv in H as (x & w3 & -> & Hx & H).
    apply lang_cat_inv in H as (d & y & -> & Hd & Hy).
    apply lang_lit in Ha as ->. apply lang_lit in Hd as ->.
    apply lang_plus_class in Hl as [? ?].
    apply lang_plus_class in Hx as [? ?].
    apply lang_plus_class in Hy as [? ?].
    exists l, x, y. simpl. auto 10.
  - intros (l & x & y & -> & Hl & Hx & Hy & Pl & Px & Py).
    constructor; [apply lang_plus_class; auto |].
    change ("@" :: x ++ "." :: y) with (["@"] ++ x ++ ["."] ++ y).
    constructor; [apply lang_lit; auto |].
    constructor; [apply lang_plus_class; auto |].
    constructor; [apply lang_lit; auto | apply lang_plus_class; auto].
Qed.

Lemma domain_pattern_lang m :
  lang domain_pattern m <->
  exists g, m = "@" :: g /\ g <> [] /\ forallb domain_char g = true.
Proof.
  unfold domain_pattern. split.
  - intro H. apply lang_cat_inv in H as (a & g & -> & Ha & Hg).
    apply lang_lit in Ha as ->. apply lang_plus_class in Hg as [? ?].
    exists g. auto.
  - intros (g & -> & Hne & Hg).
    change ("@" :: g) with (["@"] ++ g).
    constructor; [apply lang_lit | apply lang_plus_class]; auto.
Qed.

End Patterns.

(** ** Longest prefix and first match *)

Section Find.

Lemma longest_prefix_none : forall w r,
  longest_prefix r w = None ->
  forall m rest, w = m ++ rest -> ~ lang r m.
Proof.
  induction w as [| c w IH]; intros r El m rest E Hm; simpl in El.
  - symmetry in E. apply app_eq_nil in E as [-> _].
    apply nullable_lang in Hm. rewrite Hm in El. discriminate.
  - destruct (longest_prefix (deriv c r) w) eqn:El'; [discriminate |].
    destruct (nullable r) eqn:En; [discriminate |].
    destruct m as [| a m].
    + apply nullable_lang in Hm. congruence.
    + simpl in E. injection E as <- E. apply deriv_lang in Hm.
      eapply IH; eauto.
Qed.

Lemma longest_prefix_some : forall w r m,
  longest_prefix r w = Some m ->
  (exists rest, w = m ++ rest) /\ lang r m /\
  (forall m' rest', w = m' ++ rest' -> lang r m' ->
     (List.length m' <= List.length m)%nat).
Proof.
  induction w as [| c w IH]; intros r m; simpl.
  - destruct (nullable r) eqn:En; [| discriminate].
    intro E. injection E as <-. split; [exists []; auto |].
    split; [apply nullable_lang; auto |].
    intros m' rest' E _. symmetry in E. apply app_eq_nil in E as [-> _]. auto.
  - destruct (longest_prefix (deriv c r) w) as [m0 |] eqn:El.
    + intro E. injection E as <-.
      apply IH in El as ((rest & ->) & Hm & Hmax).
      split; [exists rest; auto |].
      split; [apply deriv_lang; auto |].
      intros m' rest' E Hm'. destruct m' as [| a m']; simpl; [lia |].
      simpl in E. injection E as <- E.
      apply deriv_lang in Hm'. specialize (Hmax _ _ E Hm'). lia.
    + destruct (nullable r) eqn:En; [| discriminate].
      intro E. injection E as <-. split; [exists (c :: w); auto |].
      split; [apply nullable_lang; auto |].
      intros m' rest' E Hm'. destruct m' as [| a m']; simpl; [lia |].
      exfalso. simpl in E. injection E as <- E.
      apply deriv_lang in Hm'.
      exact (longest_prefix_none _ _ El _ _ E Hm').
Qed.

Lemma take_while_split p w : exists rest, w = take_while p w ++ rest.
Proof.
  induction w as [| c w [rest IH]]; simpl.
  - exists []; auto.
  - destruct (p c); [exists rest; simpl; congruence | exists (c :: w); auto].
Qed.

Lemma take_while_all p w : forallb p (take_while p w) = true.
Proof.
  induction w as [| c w IH]; simpl; auto.
  destruct (p c) eqn:E; simpl; auto. rewrite E; auto.
Qed.

Lemma take_while_bound p : forall g rest,
  forallb p g = true ->
  (List.length g <= List.length (take_while p (g ++ rest)))%nat.
Proof.
  induction g as [| c g IH]; simpl; intros rest H; [lia |].
  apply andb_true_iff in H as [Hc Hg]. rewrite Hc. simpl.
  specialize (IH rest Hg). lia.
Qed.

Lemma take_while_id p w : forallb p w = true -> take_while p w = w.
Proof.
  induction w as [| c w IH]; simpl; auto. intro H.
  apply andb_true_iff in H as [-> Hw]. rewrite IH; auto.
Qed.

Lemma prefix_same_length {A} : forall (m m' r r' : list A),
  m ++ r = m' ++ r' -> List.length m = List.length m' -> m = m'.
Proof.
  induction m as [| a m IH]; destruct m' as [| a' m']; simpl;
    intros r r' E L; try discriminate; auto.
  injection E as -> E. f_equal. eapply IH; eauto.
Qed.

(** At an [@], the pattern takes the longest run of domain characters
    that follows, and needs one at least. *)
Lemma longest_prefix_domain_at d :
  longest_prefix domain_pattern ("@"%char :: d) =
  match take_while domain_char d with
  | [] => None
  | t => Some ("@"%char :: t)
  end.
Proof.
  destruct (take_while_split domain_char d) as [rest Ed].
  pose proof (take_while_all domain_char d) as Hall.
  destruct (longest_prefix domain_pattern ("@"%char :: d)) as [m |] eqn:El.
  - apply longest_prefix_some in El as ((r & E) & Hm & Hmax).
    apply domain_pattern_lang in Hm as (g & -> & Hne & Hg).
    simpl in E. injection E as E.
    assert (Hle : (List.length g <= List.length (take_while domain_char d))%nat).
    { rewrite E. apply take_while_bound; auto. }
    destruct (take_while domain_char d) as [| t0 t] eqn:Et.
    + destruct g; [congruence | simpl in Hle; lia].
    + assert (Hin : lang domain_pattern ("@"%char :: t0 :: t)).
      { apply domain_pattern_lang. exists (t0 :: t).
        split; [auto | split; [discriminate | auto]]. }
      assert (Hge : (List.length ("@"%char :: t0 :: t)
                     <= List.length ("@"%char :: g))%nat).
      { apply (Hmax _ rest); auto. simpl. rewrite Ed at 1. auto. }
      simpl in Hge. f_equal. f_equal.
      apply (prefix_same_length g (t0 :: t) r rest).
      * rewrite <- E. exact Ed.
      * simpl in *; lia.
  - destruct (take_while domain_char d) as [| t0 t] eqn:Et; auto.
    exfalso. apply (longest_prefix_none _ _ El ("@"%char :: t0 :: t) rest).
    + simpl. rewrite Ed at 1. auto.
    + apply domain_pattern_lang. exists (t0 :: t).
      split; [auto | split; [discriminate | auto]].
Qed.

Lemma longest_prefix_domain_other w :
  match w with
  | [] => True
  | c :: _ => Ascii.eqb c "@" = false
  end ->
  longest_prefix domain_pattern w = None.
Proof.
  intro H. destruct (longest_prefix domain_pattern w) as [m |] eqn:El; auto.
  apply longest_prefix_some in El as ((r & E) & Hm & _).
  apply domain_pattern_lang in Hm as (g & -> & _ & _).
  subst w. simpl in H. discriminate.
Qed.

Lemma find_domain_no_at w :
  forallb not_at w = true -> find domain_pattern w = None.
Proof.
  induction w as [| c w IH]; intro H.
  - reflexivity.
  - simpl in H. apply andb_true_iff in H as [Hc Hw].
    unfold not_at in Hc. apply negb_true_iff in Hc.
    cbn [find]. rewrite longest_prefix_domain_other; auto.
Qed.

Lemma find_domain l d :
  forallb not_at l = true -> forallb not_at d = true ->
  find domain_pattern (l ++ "@"%char :: d) =
  match take_while domain_char d with
  | [] => None
  | t => Some ("@"%char :: t)
  end.
Proof.
  intros Hl Hd. induction l as [| c l IH].
  - cbn [app find]. rewrite longest_prefix_domain_at.
    destruct (take_while domain_char d); auto.
    apply find_domain_no_at; auto.
  - simpl in Hl. apply andb_true_iff in Hl as [Hc Hl].
    unfold not_at in Hc. apply negb_true_iff in Hc.
    change ((c :: l) ++ "@"%char :: d) with (c :: (l ++ "@"%char :: d)).
    cbn [find]. rewrite longest_prefix_domain_other; auto.
Qed.

Lemma after_at_app l d :
  forallb not_at l = true -> after_at (l ++ "@"%char :: d) = d.
Proof.
  induction l as [| c l IH]; simpl; intro H; auto.
  apply andb_true_iff in H as [Hc Hl].
  unfold not_at in Hc. apply negb_true_iff in Hc. rewrite Hc. auto.
Qed.

(** On an email that passed validation, group 1 of the domain pattern
    is the run of domain characters that follows the [@]. *)
Lemma extract_domain_valid s :
  matches email_pattern (chars s) = true ->
  extract_domain (VStr s) = VStr (domain_of s).
Proof.
  intro H. apply email_pattern_shape in H
    as (l & x & y & E & _ & _ & _ & Pl & Px & Py).
  unfold extract_domain, domain_of. cbn [eval regexp_extract_tail col].
  rewrite E.
  assert (Pd : forallb not_at (x ++ "."%char :: y) = true).
  { rewrite forallb_app. simpl. rewrite Px, Py. reflexivity. }
  rewrite find_domain, after_at_app; auto.
  destruct (take_while domain_char (x ++ "."%char :: y)); reflexivity.
Qed.

End Find.

(** ** The transformation of a frame of records *)

Section Transformed.

Lemma filter_map {A B} (p : B -> bool) (g : A -> B) (l : list A) :
  filter p (map g l) = map g (filter (fun a => p (g a)) l).
Proof.
  induction l as [| a l IH]; simpl; auto.
  destruct (p (g a)); simpl; congruence.
Qed.

Lemma df_filter_map c cols i {A} (g : A -> Row) (rs : list A) :
  resolve cols (source c) = Ok i ->
  df_filter c {| columns := cols; rows := map g rs |} =
  Ok {| columns := cols;
        rows := map g (filter (fun r =>
                  match eval c (cell i (g r)) with
                  | VBool true => true
                  | _ => false
                  end) rs) |}.
Proof.
  intro H. unfold df_filter. cbn [columns rows]. rewrite H.
  rewrite filter_map. reflexivity.
Qed.

Lemma df_withColumn_replace name c cols i {A} (g : A -> Row) (rs : list A) :
  resolve cols (source c) = Ok i ->
  existsb (same_name name) cols = true ->
  df_withColumn name c {| columns := cols; rows := map g rs |} =
  Ok {| columns := map (fun k => if same_name name k then name else k) cols;
        rows := map (fun r =>
                  replace_named name cols (g r) (eval c (cell i (g r)))) rs |}.
Proof.
  intros H E. unfold df_withColumn. cbn [columns rows]. rewrite H, E.
  rewrite map_map. reflexivity.
Qed.

Lemma df_withColumn_add name c cols i {A} (g : A -> Row) (rs : list A) :
  resolve cols (source c) = Ok i ->
  existsb (same_name name) cols = false ->
  df_withColumn name c {| columns := cols; rows := map g rs |} =
  Ok {| columns := cols ++ [name];
        rows := map (fun r => g r ++ [eval c (cell i (g r))]) rs |}.
Proof.
  intros H E. unfold df_withColumn. cbn [columns rows]. rewrite H, E.
  rewrite map_map. reflexivity.
Qed.

Lemma email_filter_valid r :
  match eval (rlike (col "email") email_pattern) (text_cell (email r)) with
  | VBool true => true
  | _ => false
  end = valid_email r.
Proof.
  unfold valid_email. destruct (email r) as [s |]; cbn [text_cell eval rlike col].
  - destruct (matches email_pattern (chars s)); reflexivity.
  - reflexivity.
Qed.

(** The validation step on a frame of records keeps the records whose
    email passes. *)
Lemma filter_frame_of rs :
  df_filter (rlike (col "email") email_pattern) (frame_of rs) =
  Ok (frame_of (filter valid_email rs)).
Proof.
  unfold frame_of. erewrite df_filter_map by reflexivity.
  do 2 f_equal. f_equal. apply filter_ext. intro r. apply email_filter_valid.
Qed.

(** [transform_data] on a frame of records: no error, one row for each
    record that passes validation. *)
Lemma transformed_frame_of tz rs :
  transformed tz (frame_of rs) = Ok (transformed_frame tz rs).
Proof.
  unfold transformed. rewrite filter_frame_of. cbn [and_then].
  unfold frame_of.
  erewrite df_withColumn_replace by reflexivity. cbn [and_then].
  erewrite df_withColumn_add by reflexivity. cbn [and_then].
  erewrite df_withColumn_replace by reflexivity.
  unfold transformed_frame. f_equal.
Qed.

End Transformed.

(** ** Running the stages *)

Ltac run_python :=
  cbv beta iota delta
    [bind ret lift raise try_except try_except_2 exit
     emit logging_info logging_error Etl.print set_session].

Section Stages.
Local Open Scope string_scope.
Variable w : World.

Lemma read_csv_file_of rs :
  read_csv (file_of rs) = Ok (frame_of rs).
Proof.
  unfold file_of, frame_of, read_csv. rewrite map_map. reflexivity.
Qed.

Lemma extract_data_unreadable input_file why s :
  files w input_file = Unreadable why ->
  extract_data w input_file s =
  (Raise (read_exception why),
   {| session := session s; table := table s;
      log := log s ++ [(ERROR, "Error loading data from " ++ input_file
                               ++ ": " ++ str (read_exception why))];
      stdout := stdout s |}).
Proof.
  intro H. unfold extract_data. rewrite H. destruct why; reflexivity.
Qed.

Lemma extract_data_readable input_file s df :
  read_csv (files w input_file) = Ok df ->
  extract_data w input_file s =
  (Ok df,
   {| session := session s; table := table s;
      log := log s ++ [(INFO, "Successfully loaded " ++ input_file
                              ++ " into a DataFrame.")];
      stdout := stdout s |}).
Proof.
  intro H. unfold extract_data. rewrite H. reflexivity.
Qed.

Lemma transform_data_ok df out s :
  transformed (session_tz w) df = Ok out ->
  transform_data w df s = (Ok out, s).
Proof.
  intro H. unfold transform_data. rewrite H. reflexivity.
Qed.

Lemma load_data_ok df u t user password s :
  db_fault w = None ->
  load_data_to_postgresql w df (Some u) (Some t) (Some user) password s =
  (Ok tt,
   {| session := session s; table := table s ++ db_rows df;
      log := log s ++ [(INFO, "Successfully loaded data into " ++ t ++ ".")];
      stdout := stdout s |}).
Proof.
  intro H. unfold load_data_to_postgresql, save, jdbc_append.
  run_python. rewrite H. reflexivity.
Qed.

(** A run on a readable file of records, with a destination that takes
    the rows. *)
Lemma etl_pipeline_completes input_file rs u t user password s :
  files w input_file = file_of rs ->
  db_fault w = None ->
  etl_pipeline w input_file (Some u) (Some t) (Some user) password s =
  (Ok tt,
   {| session := Stopped;
      table := table s ++ db_rows (transformed_frame (session_tz w) rs);
      log := log s ++ [(INFO, "Successfully loaded " ++ input_file
                              ++ " into a DataFrame.");
                       (INFO, "Successfully loaded data into " ++ t ++ ".")];
      stdout := stdout s ++ ["ETL process completed successfully."] |}).
Proof.
  intros Hf Hd. unfold etl_pipeline.
  unfold bind at 1. cbn [set_session].
  unfold bind at 1. erewrite extract_data_readable
    by (rewrite Hf; apply read_csv_file_of).
  unfold bind at 1. erewrite transform_data_ok by apply transformed_frame_of.
  unfold bind at 1. rewrite load_data_ok by assumption.
  run_python. cbn [session table log stdout].
  rewrite <- app_assoc. reflexivity.
Qed.

End Stages.

(** ** Reading integers *)

Section Integers.
Local Open Scope Z_scope.

Lemma wrap32_range z : - 2 ^ 31 <= wrap 32 z < 2 ^ 31.
Proof.
  unfold wrap. change (2 ^ (32 - 1)) with 2147483648.
  change (2 ^ 32) with 4294967296. change (2 ^ 31) with 2147483648.
  pose proof (Z.mod_pos_bound (z + 2147483648) 4294967296 eq_refl). lia.
Qed.

Lemma int_part_range : forall w acc a f,
  - 2 ^ 31 <= acc <= 0 ->
  int_part 32 acc w = Some (a, f) ->
  - 2 ^ 31 <= a <= 0.
Proof.
  induction w as [| c w IH]; intros acc a f Hacc; cbn [int_part].
  - intro E. injection E as <- _. exact Hacc.
  - destruct (Ascii.eqb c "."); [intro E; injection E as <- _; exact Hacc |].
    destruct (digit_of c) as [d |]; [| discriminate].
    destruct (acc <? Z.quot (min_value 32) 10); [discriminate |].
    destruct (wrap 32 (acc * 10 - d) >? 0) eqn:Ew; [discriminate |].
    apply IH. pose proof (wrap32_range (acc * 10 - d)).
    rewrite Z.gtb_ltb in Ew. apply Z.ltb_ge in Ew. lia.
Qed.

(** What the cast reads is a signed 32-bit integer. *)
Lemma to_integral_32_range s z :
  to_integral 32 s = Some z -> - 2 ^ 31 <= z < 2 ^ 31.
Proof.
  unfold to_integral. destruct (trim (chars s)) as [| b rest]; [discriminate |].
  cbv zeta.
  set (body := if Ascii.eqb b "-" || Ascii.eqb b "+" then rest else b :: rest).
  assert (H : match int_part 32 0 body with
              | Some (acc, fraction) =>
                  if forallb is_digit fraction
                  then if Ascii.eqb b "-" then Some acc
                       else if wrap 32 (- acc) <? 0 then None
                            else Some (wrap 32 (- acc))
                  else None
              | None => None
              end = Some z -> - 2 ^ 31 <= z < 2 ^ 31).
  { destruct (int_part 32 0 body) as [[acc fraction] |] eqn:Ei; [| discriminate].
    apply int_part_range in Ei; [| change (2 ^ 31) with 2147483648; lia].
    destruct (forallb is_digit fraction); [| discriminate].
    destruct (Ascii.eqb b "-").
    - intro E. injection E as <-. change (2 ^ 31) with 2147483648 in *. lia.
    - destruct (wrap 32 (- acc) <? 0); [discriminate |].
      intro E. injection E as <-. apply wrap32_range. }
  destruct (Ascii.eqb b "-" || Ascii.eqb b "+"), rest; try exact H.
  discriminate.
Qed.

Lemma coerce_user_id_text s :
  coerce_user_id (VStr s) = VNull \/
  exists z, coerce_user_id (VStr s) = VInt z /\ - 2 ^ 31 <= z < 2 ^ 31.
Proof.
  unfold coerce_user_id. cbn [eval cast_int col].
  destruct (to_integral 32 s) as [z |] eqn:E; [right | left; reflexivity].
  exists z. split; [reflexivity | apply to_integral_32_range with s; exact E].
Qed.

Lemma wrap32_id z : - 2 ^ 31 <= z < 2 ^ 31 -> wrap 32 z = z.
Proof.
  intro H. unfold wrap. change (2 ^ (32 - 1)) with 2147483648.
  change (2 ^ 32) with 4294967296. change (2 ^ 31) with 2147483648 in H.
  rewrite Z.mod_small; lia.
Qed.

Lemma digit_of_bounds c d : digit_of c = Some d -> 0 <= d <= 9.
Proof.
  unfold digit_of.
  destruct ((48 <=? nat_of_ascii c)%nat && (nat_of_ascii c <=? 57)%nat) eqn:E;
    [| discriminate].
  apply andb_true_iff in E as [E1 E2].
  apply Nat.leb_le in E1. apply Nat.leb_le in E2.
  intro H. injection H as <-. lia.
Qed.

Lemma digit_not_special c d :
  digit_of c = Some d ->
  Ascii.eqb c "." = false /\ Ascii.eqb c "-" = false
  /\ Ascii.eqb c "+" = false /\ is_space c = false.
Proof.
  unfold digit_of, is_space.
  destruct ((48 <=? nat_of_ascii c)%nat && (nat_of_ascii c <=? 57)%nat) eqn:E;
    [| discriminate].
  apply andb_true_iff in E as [E1 E2].
  apply Nat.leb_le in E1. apply Nat.leb_le in E2. intros _.
  repeat split;
    try (apply Ascii.eqb_neq; intros ->;
         change (nat_of_ascii ".") with 46%nat in *;
         change (nat_of_ascii "-") with 45%nat in *;
         change (nat_of_ascii "+") with 43%nat in *; lia).
  apply orb_false_iff. split; [apply Nat.leb_gt | apply Nat.eqb_neq]; lia.
Qed.

Lemma decimal_value_grows : forall w a v,
  0 <= a -> decimal_value a w = Some v -> a <= v.
Proof.
  induction w as [| c w IH]; simpl; intros a v Ha H.
  - injection H as <-. lia.
  - destruct (digit_of c) as [d |] eqn:Ed; [| discriminate].
    apply digit_of_bounds in Ed. apply IH in H; lia.
Qed.

Lemma decimal_value_digits : forall w a v,
  decimal_value a w = Some v -> forallb is_digit w = true.
Proof.
  induction w as [| c w IH]; simpl; intros a v H; auto.
  unfold is_digit. destruct (digit_of c); [| discriminate].
  simpl. eapply IH; eauto.
Qed.

(** The digit loop reads a run of digits to its value, as long as the
    value can be held. *)
Lemma int_part_digits : forall w a v,
  0 <= a -> decimal_value a w = Some v -> v <= 2 ^ 31 ->
  int_part 32 (- a) w = Some (- v, []).
Proof.
  induction w as [| c w IH]; cbn [int_part decimal_value]; intros a v Ha H Hv.
  - injection H as <-. reflexivity.
  - destruct (digit_of c) as [d |] eqn:Ed; [| discriminate].
    destruct (digit_not_special _ _ Ed) as (-> & _).
    pose proof (digit_of_bounds _ _ Ed) as Hd.
    assert (Hg : a * 10 + d <= v)
      by (eapply decimal_value_grows; [| exact H]; lia).
    change (2 ^ 31) with 2147483648 in *.
    change (Z.quot (min_value 32) 10) with (-214748364).
    destruct (- a <? -214748364) eqn:E1; [apply Z.ltb_lt in E1; lia |].
    replace (- a * 10 - d) with (- (a * 10 + d)) by lia.
    rewrite wrap32_id by (change (2 ^ 31) with 2147483648; lia).
    destruct (- (a * 10 + d) >? 0) eqn:E2;
      [rewrite Z.gtb_ltb in E2; apply Z.ltb_lt in E2; lia |].
    apply IH; [lia | exact H | exact Hv].
Qed.

Lemma int_part_literal w v :
  decimal_value 0 w = Some v -> v <= 2 ^ 31 ->
  int_part 32 0 w = Some (- v, []).
Proof. intros H Hv. apply (int_part_digits w 0 v); [lia | exact H | exact Hv]. Qed.

Lemma trim_id w :
  forallb (fun c => negb (is_space c)) w = true -> trim w = w.
Proof.
  intro H. unfold trim.
  assert (D : forall u, forallb (fun c => negb (is_space c)) u = true ->
                        drop_while is_space u = u).
  { intros [| c u]; simpl; auto. intro Hu.
    apply andb_true_iff in Hu as [Hc _]. apply negb_true_iff in Hc.
    rewrite Hc. reflexivity. }
  rewrite (D w H), D, rev_involutive; auto.
  rewrite forallb_forall in *. intros c Hc. apply H, in_rev. exact Hc.
Qed.

Lemma digits_no_space w :
  forallb is_digit w = true ->
  forallb (fun c => negb (is_space c)) w = true.
Proof.
  rewrite !forallb_forall. intros H c Hc. specialize (H c Hc).
  unfold is_digit in H. destruct (digit_of c) as [d |] eqn:Ed; [| discriminate].
  destruct (digit_not_special _ _ Ed) as (_ & _ & _ & ->). reflexivity.
Qed.

Lemma signed_no_space c w :
  is_space c = false -> forallb is_digit w = true ->
  forallb (fun c => negb (is_space c)) (c :: w) = true.
Proof.
  intros Hc Hw. cbn [forallb]. rewrite Hc. apply digits_no_space. exact Hw.
Qed.

(** The cast reads every integer literal that fits 32 bits to its
    value. *)
Lemma to_integral_literal s z :
  integer_literal s = Some z -> - 2 ^ 31 <= z < 2 ^ 31 ->
  to_integral 32 s = Some z.
Proof.
  unfold integer_literal, to_integral.
  destruct (chars s) as [| c w]; [discriminate |].
  change (2 ^ 31) with 2147483648.
  destruct (Ascii.eqb c "-") eqn:Em; [| destruct (Ascii.eqb c "+") eqn:Ep].
  - destruct w as [| c' w']; [discriminate |].
    destruct (decimal_value 0 (c' :: w')) as [v |] eqn:Ev; [| discriminate].
    cbn [option_map]. intros E Hz. injection E as <-.
    assert (Hc : is_space c = false)
      by (apply Ascii.eqb_eq in Em; subst c; reflexivity).
    rewrite trim_id
      by (apply signed_no_space;
          [exact Hc | eapply decimal_value_digits; exact Ev]).
    cbv zeta. rewrite Em. cbn [orb].
    rewrite (int_part_literal (c' :: w') v Ev)
      by (change (2 ^ 31) with 2147483648; lia).
    reflexivity.
  - destruct w as [| c' w']; [discriminate |].
    intros Ev Hz.
    assert (Hc : is_space c = false)
      by (apply Ascii.eqb_eq in Ep; subst c; reflexivity).
    assert (0 <= z) by (eapply decimal_value_grows; [| exact Ev]; lia).
    rewrite trim_id
      by (apply signed_no_space;
          [exact Hc | eapply decimal_value_digits; exact Ev]).
    cbv zeta. rewrite Em, Ep. cbn [orb].
    rewrite (int_part_literal (c' :: w') z Ev)
      by (change (2 ^ 31) with 2147483648; lia).
    cbn [forallb]. rewrite Z.opp_involutive.
    rewrite wrap32_id by (change (2 ^ 31) with 2147483648; lia).
    destruct (z <? 0) eqn:E; [apply Z.ltb_lt in E; lia | reflexivity].
  - intros Ev Hz.
    assert (0 <= z) by (eapply decimal_value_grows; [| exact Ev]; lia).
    rewrite trim_id by (apply digits_no_space; eapply decimal_value_digits; eauto).
    cbv zeta. rewrite Em, Ep. cbn [orb].
    rewrite (int_part_literal (c :: w) z Ev)
      by (change (2 ^ 31) with 2147483648; lia).
    cbn [forallb]. rewrite Z.opp_involutive.
    rewrite wrap32_id by (change (2 ^ 31) with 2147483648; lia).
    destruct (z <? 0) eqn:E; [apply Z.ltb_lt in E; lia | reflexivity].
Qed.

End Integers.

(** ** Extraction *)

Section Extraction.
Local Open Scope string_scope.






(** An empty name and two names that differ by the case only. *)
Example makeSafeHeader_renames :
  makeSafeHeader ["user_id"; ""; "email"; "name"; "Email"]
  = ["user_id"; "_c1"; "email2"; "name"; "Email4"].
Proof. vm_compute. reflexivity. Qed.


Lemma read_csv_raises f e :
  read_csv f = Raise e <->
  exists why, f = Unreadable why /\ e = read_exception why.
Proof.
  split.
  - destruct f as [why | |]; simpl; intro E; try discriminate.
    injection E as <-. eauto.
  - intros (why & -> & ->). reflexivity.
Qed.

Lemma extract_data_outcome w input_file s :
  fst (extract_data w input_file s) = read_csv (files w input_file).
Proof.
  unfold extract_data. run_python.
  destruct (read_csv (files w input_file)) as [df | e];
    [| destruct (is_Exception e)]; reflexivity.
Qed.

End Extraction.

(** ** Outcomes of a run *)

Section Outcomes.
Local Open Scope string_scope.

Lemma resolve_raises cols n e :
  resolve cols n = Raise e -> is_AnalysisException e = true.
Proof.
  unfold resolve. destruct (positions n cols 0) as [| i [| j l]];
    intro E; try discriminate; injection E as <-; reflexivity.
Qed.

Lemma df_filter_raises c df e :
  df_filter c df = Raise e -> is_AnalysisException e = true.
Proof.
  unfold df_filter. destruct (resolve _ _) eqn:R; [discriminate |].
  intro E. injection E as <-. eapply resolve_raises; eauto.
Qed.

Lemma df_withColumn_raises n c df e :
  df_withColumn n c df = Raise e -> is_AnalysisException e = true.
Proof.
  unfold df_withColumn. destruct (resolve _ _) eqn:R.
  - destruct (existsb _ _); discriminate.
  - intro E. injection E as <-. eapply resolve_raises; eauto.
Qed.

(** The transformation raises nothing but analysis errors. *)
Lemma transformed_raises tz df e :
  transformed tz df = Raise e -> is_AnalysisException e = true.
Proof.
  unfold transformed.
  destruct (df_filter _ df) as [d1 |] eqn:E1; cbn [and_then];
    [| intro E; injection E as <-; eapply df_filter_raises; eauto].
  destruct (df_withColumn "signup_date" _ d1) as [d2 |] eqn:E2; cbn [and_then];
    [| intro E; injection E as <-; eapply df_withColumn_raises; eauto].
  destruct (df_withColumn "domain" _ d2) as [d3 |] eqn:E3; cbn [and_then];
    [| intro E; injection E as <-; eapply df_withColumn_raises; eauto].
  apply df_withColumn_raises.
Qed.

Lemma transform_data_raise w df e s :
  transformed (session_tz w) df = Raise e ->
  transform_data w df s =
  (Raise e,
   {| session := session s; table := table s;
      log := log s ++ [(ERROR, "Error during data transformation: " ++ str e)];
      stdout := stdout s |}).
Proof.
  intro H. unfold transform_data. run_python. rewrite H.
  rewrite (transformed_raises _ _ _ H). reflexivity.
Qed.

Lemma load_data_failure w df jdbc_url table_name username password s :
  jdbc_url = None \/ table_name = None \/ username = None ->
  load_data_to_postgresql w df jdbc_url table_name username password s =
  (Raise (Py4JJavaError "An error occurred while calling save"),
   {| session := session s; table := table s;
      log := log s ++ [(ERROR, "Error loading data to PostgreSQL: "
                               ++ "An error occurred while calling save")];
      stdout := stdout s |}).
Proof.
  intro H. unfold load_data_to_postgresql, save. run_python.
  destruct jdbc_url, table_name, username; destruct H as [H | [H | H]];
    try discriminate; reflexivity.
Qed.

Lemma load_data_fault w df u t user password s committed :
  db_fault w = Some committed ->
  load_data_to_postgresql w df (Some u) (Some t) (Some user) password s =
  (Raise (Py4JJavaError "An error occurred while calling save"),
   {| session := session s; table := table s ++ kept committed (db_rows df);
      log := log s ++ [(ERROR, "Error loading data to PostgreSQL: "
                               ++ "An error occurred while calling save")];
      stdout := stdout s |}).
Proof.
  intro H. unfold load_data_to_postgresql, save, jdbc_append. run_python.
  rewrite H. reflexivity.
Qed.

(** However a run ends: it returns with the session stopped, or it
    raises an [Exception] with the session still active; and the rows
    that were in the table are still there, in front. *)
Lemma etl_pipeline_outcome w input_file jdbc_url table_name username password s :
  exists r s' extra,
    etl_pipeline w input_file jdbc_url table_name username password s = (r, s')
    /\ table s' = (table s ++ extra)%list
    /\ ((r = Ok tt /\ session s' = Stopped)
        \/ (exists e, r = Raise e /\ is_Exception e = true
                      /\ session s' = Active)).
Proof.
  unfold etl_pipeline. unfold bind at 1. cbn [set_session]. unfold bind at 1.
  destruct (read_csv (files w input_file)) as [df | e] eqn:Er.
  2:{ apply read_csv_raises in Er as (why & Hm & ->).
      rewrite (extract_data_unreadable _ _ _ _ Hm). cbn [session table log stdout].
      do 2 eexists. exists []. split; [reflexivity |]. cbn [session table].
      split; [rewrite app_nil_r; reflexivity | right].
      eexists. split; [reflexivity |]. split; [destruct why |]; reflexivity. }
  rewrite (extract_data_readable _ _ _ _ Er). cbn [session table log stdout].
  unfold bind at 1.
  destruct (transformed (session_tz w) df) as [out | e] eqn:Et.
  2:{ rewrite (transform_data_raise _ _ _ _ Et). cbn [session table log stdout].
      do 2 eexists. exists []. split; [reflexivity |]. cbn [session table].
      split; [rewrite app_nil_r; reflexivity | right].
      exists e. pose proof (transformed_raises _ _ _ Et).
      destruct e; try discriminate; auto. }
  rewrite (transform_data_ok _ _ _ _ Et). unfold bind at 1.
  destruct jdbc_url as [u |], table_name as [t |], username as [user |];
    try (rewrite load_data_failure by auto; cbn [session table log stdout];
         do 2 eexists; exists []; split; [reflexivity |]; cbn [session table];
         split; [rewrite app_nil_r; reflexivity | right; eauto]).
  destruct (db_fault w) as [k |] eqn:Ef.
  - rewrite (load_data_fault _ _ _ _ _ _ _ _ Ef). cbn [session table log stdout].
    do 2 eexists. exists (kept k (db_rows out)).
    split; [reflexivity |]. cbn [session table].
    split; [reflexivity | right; eauto].
  - rewrite load_data_ok by exact Ef. run_python.
    do 2 eexists. exists (db_rows out).
    split; [reflexivity |]. cbn [session table].
    split; [reflexivity | left; auto].
Qed.

(** A run on a file that cannot be read stops in the extraction. *)
Lemma etl_pipeline_unreadable
    w input_file why jdbc_url table_name username password s :
  files w input_file = Unreadable why ->
  etl_pipeline w input_file jdbc_url table_name username password s
  = (Raise (read_exception why),
     {| session := Active;
        table := table s;
        log := log s ++ [(ERROR, "Error loading data from " ++ input_file
                                 ++ ": " ++ str (read_exception why))];
        stdout := stdout s |}).
Proof.
  intro Hm. unfold etl_pipeline.
  unfold bind at 1. cbn [set_session]. unfold bind at 1.
  rewrite (extract_data_unreadable _ _ _ _ Hm). reflexivity.
Qed.

(** The script, once the password has been read. *)
Lemma main_run w s p password :
  environ w "SECRET_POSTGRES_PASSWORD_PATH" = Some p ->
  secrets w p = Some password ->
  main w s =
  match pipeline_of_main w password s with
  | (Ok a, s') => (Ok a, s')
  | (Raise e, s') =>
      if is_Exception e
      then logging_error ("ETL process failed: " ++ str e) s'
      else (Raise e, s')
  end.
Proof.
  intros Hp Hs. unfold main, get_postgres_password. rewrite Hp.
  unfold bind at 1. unfold try_except at 1. rewrite Hs. cbn [ret].
  unfold bind at 1. cbn [Etl.print]. reflexivity.
Qed.

End Outcomes.

(** * The claims *)

Section Claims_transformer.
Local Open Scope string_scope.

Lemma db_rows_length tz rs :
  List.length (db_rows (transformed_frame tz rs))
  = List.length (filter valid_email rs).
Proof. unfold db_rows, transformed_frame. cbn [rows]. now rewrite !length_map. Qed.

(** C1, as the code has it: the user_id of every validated record is
    coerced to a signed 32-bit integer, an integer literal to its value
    (["42"] gives [42]); a user_id that does not read as an integer, such
    as ["abc"], becomes null.  The transformation raises no error for it
    and logs nothing; and when the load can succeed (the URL, the table
    and the user are set and the destination takes the write) the run
    completes and every validated record is written to the
    destination. *)
Theorem user_id_coerced_or_null
    (w : World) (input_file : string) (rs : list RawRecord)
    (u t user password : string) (s : State) :
  files w input_file = file_of rs ->
  db_fault w = None ->
  coerce_user_id (VStr "42") = VInt 42
  /\ coerce_user_id (VStr "abc") = VNull
  /\ (forall x z, integer_literal x = Some z -> (- 2 ^ 31 <= z < 2 ^ 31)%Z ->
                  coerce_user_id (VStr x) = VInt z)
  /\ (forall x, coerce_user_id (VStr x) = VNull
                \/ exists z, coerce_user_id (VStr x) = VInt z
                             /\ (- 2 ^ 31 <= z < 2 ^ 31)%Z)
  /\ (exists out,
        transform_data w (frame_of rs) s = (Ok out, s)
        /\ map (cell 0) (rows out)
           = map (fun r => coerce_user_id (text_cell (user_id r)))
                 (filter valid_email rs))
  /\ (exists s',
        etl_pipeline w input_file (Some u) (Some t) (Some user) password s
        = (Ok tt, s')
        /\ table s'
           = (table s ++ db_rows (transformed_frame (session_tz w) rs))%list
        /\ List.length (table s')
           = (List.length (table s) + List.length (filter valid_email rs))%nat).
Proof.
  intros Hf Hd.
  split; [reflexivity |]. split; [reflexivity |].
  split.
  { intros x z Hx Hz. unfold coerce_user_id. cbn [eval cast_int col].
    rewrite (to_integral_literal _ _ Hx Hz). reflexivity. }
  split; [apply coerce_user_id_text |]. split.
  - exists (transformed_frame (session_tz w) rs). split.
    + apply transform_data_ok, transformed_frame_of.
    + unfold transformed_frame. cbn [rows]. rewrite map_map. reflexivity.
  - eexists. split; [apply etl_pipeline_completes; eassumption |].
    cbn [table]. split; [reflexivity |].
    rewrite length_app, db_rows_length. reflexivity.
Qed.

Lemma user_id_coerced_or_null_witness :
  exists s',
    etl_pipeline (world (file_of [ann; bob]) 0) "data.csv"
      (Some "jdbc:postgresql://db:5432/etl") (Some "users") (Some "etl")
      "s3cret" (initial [])
    = (Ok tt, s')
    /\ List.length (table s') = 2%nat.
Proof.
  destruct (user_id_coerced_or_null (world (file_of [ann; bob]) 0) "data.csv"
              [ann; bob] "jdbc:postgresql://db:5432/etl" "users" "etl"
              "s3cret" (initial []) eq_refl eq_refl)
    as (_ & _ & _ & _ & _ & s' & H & _ & L).
  exists s'. split; [exact H | exact L].
Defined.

(** C1 as stated fails: with user_id ["abc"] and a well-formed email,
    the run completes and the record is in the destination, its
    user_id null. *)
Lemma non_integer_user_id_is_written :
  main (world (file_of [bob]) 0) (initial [])
  = (Ok tt,
     {| session := Stopped;
        table := [[("user_id", VNull); ("name", VStr "Bob");
                   ("email", VStr "bob@example.com");
                   ("signup_date", VDate 2023 11 14);
                   ("domain", VStr "example.com")]];
        log := [(INFO, "Successfully loaded data.csv into a DataFrame.");
                (INFO, "Successfully loaded data into users.")];
        stdout := ["Connecting to DB users as etl";
                   "ETL process completed successfully."] |}).
Proof. vm_compute. reflexivity. Qed.

End Claims_transformer.

Section Claims_extraction.
Local Open Scope string_scope.



(** C6: when the input file cannot be read, extraction raises and the
    run stops there, having done nothing but start the session and log
    the error: the table is as it was and nothing of the load stage is in
    the log.  The script then reports the error of the extraction. *)
Theorem unreadable_input_writes_nothing
    (w : World) (input_file : string) (why : ReadError)
    (jdbc_url table_name username : option string) (password : string)
    (s : State) :
  files w input_file = Unreadable why ->
  etl_pipeline w input_file jdbc_url table_name username password s
  = (Raise (read_exception why),
     {| session := Active;
        table := table s;
        log := log s ++ [(ERROR, "Error loading data from " ++ input_file
                                 ++ ": " ++ str (read_exception why))];
        stdout := stdout s |})
  /\ (input_file = "data.csv" ->
      forall p password',
        environ w "SECRET_POSTGRES_PASSWORD_PATH" = Some p ->
        secrets w p = Some password' ->
        table (snd (main w s)) = table s
        /\ log (snd (main w s))
           = (log s
              ++ [(ERROR, ("Error loading data from data.csv: "
                           ++ str (read_exception why))%string);
                  (ERROR, ("ETL process failed: "
                           ++ str (read_exception why))%string)])%list).
Proof.
  intro Hm. split; [apply etl_pipeline_unreadable; exact Hm |].
  intros -> p password' Hp Hs.
  rewrite (main_run _ _ _ _ Hp Hs). unfold pipeline_of_main.
  rewrite (etl_pipeline_unreadable w _ _ _ _ _ _ _ Hm).
  replace (is_Exception (read_exception why)) with true
    by (destruct why; reflexivity).
  cbn. rewrite <- app_assoc. split; reflexivity.
Qed.

Lemma unreadable_input_writes_nothing_witness :
  table (snd (main (world missing 0) (initial []))) = []
  /\ log (snd (main (world missing 0) (initial [])))
     = [(ERROR, "Error loading data from data.csv: Path does not exist: file:/app/data.csv");
        (ERROR, "ETL process failed: Path does not exist: file:/app/data.csv")].
Proof.
  exact (proj2 (unreadable_input_writes_nothing (world missing 0) "data.csv"
                  (PathNotFound "Path does not exist: file:/app/data.csv")
                  (Some "jdbc:postgresql://db:5432/etl") (Some "users")
                  (Some "etl") "s3cret" (initial []) eq_refl)
           eq_refl "/run/secrets/postgres_password" "s3cret" eq_refl eq_refl).
Defined.

End Claims_extraction.

Section Claims_validator.
Local Open Scope string_scope.

Lemma rlike_passes v :
  match eval (rlike (col "email") email_pattern) v with
  | VBool true => true
  | _ => false
  end = email_passes v.
Proof.
  destruct v; cbn [eval rlike col email_passes]; try reflexivity.
  destruct (matches email_pattern (chars s)); reflexivity.
Qed.






End Claims_validator.

Section Claims_derived_fields.
Local Open Scope string_scope.
Local Open Scope Z_scope.

Lemma valid_email_text r :
  valid_email r = true ->
  exists s, email r = Some s /\ matches email_pattern (chars s) = true.
Proof.
  unfold valid_email. destruct (email r) as [s |]; [eauto | discriminate].
Qed.

(** C4: for every record that passed validation the domain column holds
    what follows the [@] of the email, as far as it is made of letters,
    digits, dots and hyphens (the [@] left out): all of it when it has
    no other character.  The email [alice@sub.example.com] gives
    [sub.example.com]. *)
Theorem domain_follows_the_at (tz : Z) (rs : list RawRecord) :
  (exists out,
     transformed tz (frame_of rs) = Ok out
     /\ nth_error (columns out) 4 = Some "domain"
     /\ map (cell 4) (rows out)
        = map (fun r => match email r with
                        | Some s => VStr (domain_of s)
                        | None => VNull
                        end) (filter valid_email rs))
  /\ (forall s,
        matches email_pattern (chars s) = true ->
        extract_domain (VStr s) = VStr (domain_of s)
        /\ (forallb domain_char (after_at (chars s)) = true ->
            extract_domain (VStr s) = VStr (text (after_at (chars s)))))
  /\ extract_domain (VStr "alice@sub.example.com") = VStr "sub.example.com".
Proof.
  split; [| split].
  - exists (transformed_frame tz rs).
    split; [apply transformed_frame_of |]. split; [reflexivity |].
    unfold transformed_frame. cbn [rows]. rewrite map_map.
    apply map_ext_in. intros r Hr. apply filter_In in Hr as [_ Hv].
    apply valid_email_text in Hv as (s & E & Hs).
    cbn [transformed_row cell nth]. rewrite E. cbn [text_cell].
    apply extract_domain_valid. exact Hs.
  - intros s Hs. split; [apply extract_domain_valid; exact Hs |].
    intro Hall. rewrite (extract_domain_valid _ Hs). unfold domain_of.
    rewrite take_while_id by exact Hall. reflexivity.
  - vm_compute. reflexivity.
Qed.

Lemma day_of_instant tz :
  - 80000 <= tz < 6400 -> (1700000000 + tz) / 86400 = 19675.
Proof.
  intro H. symmetry. apply (Z.div_unique _ _ _ (80000 + tz)); lia.
Qed.

(** C5, as the code has it: the date is the calendar date of the
    instant in the time zone of the Spark session, the time of day
    dropped.  For [1700000000] it is 2023-11-14 when the session runs in
    UTC, and in any zone between 22 h 13 min 20 s west and
    1 h 46 min 39 s east of it. *)
Theorem signup_date_in_session_zone (tz : Z) (rs : list RawRecord) :
  - 80000 <= tz < 6400 ->
  convert_signup_date tz (VStr "1700000000") = VDate 2023 11 14
  /\ exists out,
       transformed tz (frame_of rs) = Ok out
       /\ map (cell 3) (rows out)
          = map (fun r => convert_signup_date tz (text_cell (signup_date r)))
                (filter valid_email rs)
       /\ forall r, In r (filter valid_email rs) ->
                    signup_date r = Some "1700000000" ->
                    In (transformed_row tz r) (rows out)
                    /\ cell 3 (transformed_row tz r) = VDate 2023 11 14.
Proof.
  intro H.
  assert (E : convert_signup_date tz (VStr "1700000000") = VDate 2023 11 14).
  { unfold convert_signup_date. cbn [eval to_date from_unixtime col].
    replace (to_integral 64 "1700000000") with (Some 1700000000)
      by (vm_compute; reflexivity).
    replace (instant_of_seconds 1700000000) with 1700000000
      by (vm_compute; reflexivity).
    unfold local_datetime. rewrite (day_of_instant tz H).
    reflexivity. }
  split; [exact E |].
  exists (transformed_frame tz rs). split; [apply transformed_frame_of |].
  split.
  - unfold transformed_frame. cbn [rows]. rewrite map_map. reflexivity.
  - intros r Hr Hs. split.
    + unfold transformed_frame. cbn [rows]. apply in_map. exact Hr.
    + cbn [transformed_row cell nth]. rewrite Hs. exact E.
Qed.

Lemma signup_date_in_session_zone_witness :
  convert_signup_date 0 (VStr "1700000000") = VDate 2023 11 14.
Proof.
  apply (signup_date_in_session_zone 0 [ann]). lia.
Defined.

(** C5 as stated fails: in a session two hours east of UTC the same
    record gets the date 2023-11-15. *)
Lemma signup_date_east_of_utc :
  transformed 7200 (frame_of [ann])
  = Ok {| columns := ["user_id"; "name"; "email"; "signup_date"; "domain"];
          rows := [[VInt 1; VStr "Ann"; VStr "ann@example.com";
                    VDate 2023 11 15; VStr "example.com"]] |}.
Proof. vm_compute. reflexivity. Qed.

End Claims_derived_fields.

Section Claims_sink.
Local Open Scope string_scope.
Local Open Scope list_scope.




End Claims_sink.

Section Claims_orchestrator.
Local Open Scope string_scope.

Lemma pipeline_of_main_outcome w password s :
  exists r s',
    pipeline_of_main w password s = (r, s')
    /\ ((r = Ok tt /\ session s' = Stopped)
        \/ (exists e, r = Raise e /\ is_Exception e = true
                      /\ session s' = Active)).
Proof.
  unfold pipeline_of_main.
  destruct (etl_pipeline_outcome w "data.csv" (environ w "JDBC_URL")
              (environ w "POSTGRES_TABLE") (environ w "POSTGRES_USER")
              password (announced w s)) as (r & s' & extra & E & _ & H).
  eauto.
Qed.

(** C8, what the code does: once the password has been read, the script
    ends with completion status 0 whatever happens in the pipeline.  A
    stage that fails logs its own diagnostic and raises; the script
    catches the exception, logs "ETL process failed" as the last line,
    and runs to its end: the failure is not signalled to the caller. *)
Theorem failed_run_reports_status_zero
    (w : World) (s : State) (p password : string) :
  environ w "SECRET_POSTGRES_PASSWORD_PATH" = Some p ->
  secrets w p = Some password ->
  exit_status (fst (main w s)) = 0%Z
  /\ (forall e s',
        pipeline_of_main w password s = (Raise e, s') ->
        main w s
        = (Ok tt,
           {| session := session s'; table := table s';
              log := (log s' ++ [(ERROR, ("ETL process failed: " ++ str e)%string)])%list;
              stdout := stdout s' |}))
  /\ (forall why,
        files w "data.csv" = Unreadable why ->
        log (snd (main w s))
        = (log s
           ++ [(ERROR, ("Error loading data from data.csv: "
                        ++ str (read_exception why))%string);
               (ERROR, ("ETL process failed: "
                        ++ str (read_exception why))%string)])%list).
Proof.
  intros Hp Hs. rewrite (main_run _ _ _ _ Hp Hs).
  destruct (pipeline_of_main_outcome w password s)
    as (r & s1 & E & [[-> _] | (e & -> & He & _)]); rewrite E.
  - split; [reflexivity |]. split; [intros e s' H; discriminate |].
    intros why Hm. exfalso. unfold pipeline_of_main in E.
    rewrite (etl_pipeline_unreadable w _ _ _ _ _ _ _ Hm) in E.
    discriminate.
  - rewrite He. split; [reflexivity |].
    split; [intros e' s' H; injection H as <- <-; reflexivity |].
    intros why Hm. unfold pipeline_of_main in E.
    rewrite (etl_pipeline_unreadable w _ _ _ _ _ _ _ Hm) in E.
    injection E as <- <-. cbn. rewrite <- app_assoc. reflexivity.
Qed.

Lemma failed_run_reports_status_zero_witness :
  exit_status (fst (main (world missing 0) (initial []))) = 0%Z.
Proof.
  exact (proj1 (failed_run_reports_status_zero (world missing 0) (initial [])
                  "/run/secrets/postgres_password" "s3cret" eq_refl eq_refl)).
Defined.

(** C9, what the code does: [spark.stop()] is the last statement of
    [etl_pipeline] and nothing guards it.  A run that returns has
    stopped its session; a run that raises, at whatever stage, ends with
    the session still active, and the script does not stop it
    either. *)
Theorem failed_run_keeps_session
    (w : World) (input_file : string)
    (jdbc_url table_name username : option string) (password : string)
    (s : State) (r : result unit) (s' : State) :
  etl_pipeline w input_file jdbc_url table_name username password s = (r, s') ->
  (r = Ok tt -> session s' = Stopped)
  /\ (forall e, r = Raise e -> session s' = Active)
  /\ (forall e p s0,
        r = Raise e ->
        pipeline_of_main w password s0 = (r, s') ->
        environ w "SECRET_POSTGRES_PASSWORD_PATH" = Some p ->
        secrets w p = Some password ->
        session (snd (main w s0)) = Active).
Proof.
  intro E.
  destruct (etl_pipeline_outcome w input_file jdbc_url table_name username
              password s) as (r0 & s0' & extra & E0 & _ & H).
  rewrite E in E0. injection E0 as <- <-.
  destruct H as [[-> Hs] | (e & -> & He & Hs)].
  - split; [auto |]. split; intros; discriminate.
  - split; [intro; discriminate |]. split; [auto |].
    intros e' p s0 _ Hmain Hp Hsec.
    rewrite (main_run _ _ _ _ Hp Hsec), Hmain, He. exact Hs.
Qed.

Lemma failed_run_keeps_session_witness :
  session (snd (etl_pipeline (world missing 0) "data.csv"
                  (Some "jdbc:postgresql://db:5432/etl") (Some "users")
                  (Some "etl") "s3cret" (initial [])))
  = Active.
Proof.
  exact (proj1 (proj2 (failed_run_keeps_session (world missing 0) "data.csv"
                         (Some "jdbc:postgresql://db:5432/etl") (Some "users")
                         (Some "etl") "s3cret" (initial []) _ _
                         (surjective_pairing _)))
           (AnalysisException "Path does not exist: file:/app/data.csv") eq_refl).
Defined.

End Claims_orchestrator.

Section Claims_generator.
Import Generator.
Local Open Scope Z_scope.
Context {F stamp : Type} {lib : FakerLib F stamp}.

Lemma range_from_one n :
  1 <= n -> range 1 (n + 1) = 1 :: tl (range 1 (n + 1)).
Proof.
  intro H. unfold range.
  replace (Z.to_nat (n + 1 - 1)) with (S (Z.to_nat (n - 1))) by lia.
  reflexivity.
Qed.

(** C10: without tqdm, for a record count from 1 to 9 the progress
    threshold is [num_records // 10 = 0]; the first pass of the loop
    takes [user_id % 0], which raises [ZeroDivisionError]; neither
    [except] clause of [write_to_csv] catches it.  The file then holds
    the header row and nothing else, no record was asked of Faker, and
    nothing was printed. *)
Theorem small_count_divides_by_zero
    (csv_filename : string) (num_records : Z) (start_date end_date : string)
    (s : State) :
  1 <= num_records < 10 ->
  locked s csv_filename = false ->
  num_records / 10 = 0
  /\ (exists msg,
        fst (write_to_csv false csv_filename num_records start_date end_date s)
        = Raise (ZeroDivisionError msg))
  /\ disk (snd (write_to_csv false csv_filename num_records start_date
                  end_date s)) csv_filename
     = Some [Header ["user_id"; "name"; "email"; "signup_date"]%string]
  /\ (forall other, String.eqb other csv_filename = false ->
        disk (snd (write_to_csv false csv_filename num_records start_date
                     end_date s)) other
        = disk s other)
  /\ faker (snd (write_to_csv false csv_filename num_records start_date
                   end_date s)) = faker s
  /\ screen (snd (write_to_csv false csv_filename num_records start_date
                    end_date s)) = screen s.
Proof.
  intros Hn Hl.
  assert (Hdiv : num_records / 10 = 0) by (apply Z.div_small; lia).
  split; [exact Hdiv |].
  unfold write_to_csv. rewrite Hdiv, range_from_one by lia.
  cbn [for_user_id negb].
  unfold try_except_2, bind, open_w, writerow, set_file, py_mod, raise.
  rewrite Hl. cbn [disk locked screen faker Z.eqb].
  rewrite String.eqb_refl.
  cbn [is_IOError is_ValueError fst snd disk locked screen faker app].
  rewrite String.eqb_refl.
  split; [eexists; reflexivity |]. split; [reflexivity |].
  split; [| split; reflexivity].
  intros other Ho. rewrite Ho. reflexivity.
Qed.

End Claims_generator.

Lemma small_count_divides_by_zero_witness :
  exists msg,
    fst (Generator.write_to_csv (lib := counting_faker) false "data.csv" 5
           "-5y" "now"
           {| Generator.disk := fun _ => None;
              Generator.locked := fun _ => false;
              Generator.screen := [];
              Generator.faker := 0%nat |})
    = Raise (ZeroDivisionError msg).
Proof.
  refine (proj1 (proj2 (small_count_divides_by_zero (lib := counting_faker)
                          "data.csv" 5 "-5y" "now"
                          {| Generator.disk := fun _ => None;
                             Generator.locked := fun _ => false;
                             Generator.screen := [];
                             Generator.faker := 0%nat |} _ eq_refl))).
  lia.
Defined.

(** * Further properties *)

Import Shapes.

(** ** Column names *)

Section Columns.
Local Open Scope string_scope.

Lemma same_name_refl a : same_name a a = true.
Proof. unfold same_name. apply String.eqb_refl. Qed.

Lemma same_name_left a b c :
  same_name a c = true -> same_name b c = same_name b a.
Proof.
  unfold same_name. intro H. apply String.eqb_eq in H. rewrite H. reflexivity.
Qed.

Lemma same_name_rename m n k :
  same_name n (if same_name m k then m else k) = same_name n k.
Proof.
  destruct (same_name m k) eqn:E; [| reflexivity].
  symmetry. apply same_name_left. exact E.
Qed.

Lemma positions_rename m n : forall cols i,
  positions n (map (fun k => if same_name m k then m else k) cols) i
  = positions n cols i.
Proof.
  induction cols as [| k cols IH]; intro i; simpl; [reflexivity |].
  rewrite same_name_rename, IH. reflexivity.
Qed.

Lemma positions_app_other m n : forall cols i,
  same_name n m = false ->
  positions n (cols ++ [m]) i = positions n cols i.
Proof.
  induction cols as [| k cols IH]; intros i H; simpl.
  - rewrite H. reflexivity.
  - rewrite IH by exact H. reflexivity.
Qed.

Lemma positions_spec n : forall cols k j,
  In j (positions n cols k) <->
  (k <= j)%nat /\ exists c, nth_error cols (j - k) = Some c
                            /\ same_name n c = true.
Proof.
  induction cols as [| c cols IH]; intros k j; simpl.
  - split; [tauto |]. intros (_ & c & H & _). destruct (j - k)%nat; discriminate.
  - assert (Hrec : In j (positions n cols (S k)) <->
                   (k < j)%nat /\ exists c', nth_error cols (j - S k) = Some c'
                                             /\ same_name n c' = true).
    { rewrite IH. reflexivity. }
    destruct (same_name n c) eqn:E; simpl; rewrite ?Hrec; split.
    + intros [<- | (Hk & c' & H & Hc)].
      * split; [lia |]. exists c. rewrite Nat.sub_diag. auto.
      * split; [lia |]. exists c'.
        replace (j - k)%nat with (S (j - S k)) by lia. auto.
    + intros (Hk & c' & H & Hc).
      destruct (Nat.eq_dec k j) as [-> | Hne]; [left; reflexivity | right].
      split; [lia |]. exists c'.
      replace (j - k)%nat with (S (j - S k)) in H by lia. auto.
    + intros (Hk & c' & H & Hc). split; [lia |]. exists c'.
      replace (j - k)%nat with (S (j - S k)) by lia. auto.
    + intros (Hk & c' & H & Hc).
      destruct (Nat.eq_dec k j) as [-> | Hne].
      * rewrite Nat.sub_diag in H. simpl in H. congruence.
      * split; [lia |]. exists c'.
        replace (j - k)%nat with (S (j - S k)) in H by lia. auto.
Qed.

Lemma resolve_positions cols n i :
  resolve cols n = Ok i <-> positions n cols 0 = [i].
Proof.
  unfold resolve. destruct (positions n cols 0) as [| a [| b l]]; split;
    intro H; try discriminate; congruence.
Qed.

Lemma unique_column_resolve cols n :
  unique_column cols n = true <-> exists i, resolve cols n = Ok i.
Proof.
  unfold unique_column, resolve.
  destruct (positions n cols 0) as [| a [| b l]]; split;
    try discriminate; eauto; intros [i H]; discriminate.
Qed.

Lemma unique_column_false cols n :
  unique_column cols n = false ->
  exists msg, resolve cols n = Raise (AnalysisException msg).
Proof.
  unfold unique_column, resolve.
  destruct (positions n cols 0) as [| a [| b l]]; try discriminate; eauto.
Qed.

(** A name that resolves names one column only. *)
Lemma resolve_at cols n i :
  resolve cols n = Ok i ->
  (exists c, nth_error cols i = Some c /\ same_name n c = true)
  /\ forall j c, nth_error cols j = Some c -> same_name n c = true -> j = i.
Proof.
  intro H. apply resolve_positions in H. split.
  - assert (Hi : In i (positions n cols 0)) by (rewrite H; left; reflexivity).
    apply positions_spec in Hi as (_ & c & Hc & Hn).
    rewrite Nat.sub_0_r in Hc. eauto.
  - intros j c Hc Hn.
    assert (Hj : In j (positions n cols 0)).
    { apply positions_spec. split; [lia |]. exists c.
      rewrite Nat.sub_0_r. auto. }
    rewrite H in Hj. destruct Hj as [<- | []]. reflexivity.
Qed.

Lemma resolve_rename m n cols :
  resolve (map (fun k => if same_name m k then m else k) cols) n
  = resolve cols n.
Proof. unfold resolve. rewrite positions_rename. reflexivity. Qed.

Lemma resolve_app_other m n cols :
  same_name n m = false -> resolve (cols ++ [m]) n = resolve cols n.
Proof. intro H. unfold resolve. rewrite positions_app_other by exact H. reflexivity. Qed.

Lemma existsb_same_name cols n i :
  resolve cols n = Ok i -> existsb (same_name n) cols = true.
Proof.
  intro H. apply resolve_at in H as ((c & Hc & Hn) & _).
  apply existsb_exists. exists c. split; [| exact Hn].
  eapply nth_error_In; eauto.
Qed.

End Columns.

(** ** Frames of any header *)

Section Frames.
Local Open Scope string_scope.
Local Open Scope list_scope.

Lemma length_replace_named name v : forall cols r,
  List.length (replace_named name cols r v) = List.length r.
Proof.
  induction cols as [| k cols IH]; intros [| x r]; simpl; auto.
Qed.

Lemma cell_replace_named name v : forall cols r j k,
  List.length r = List.length cols ->
  nth_error cols j = Some k ->
  cell j (replace_named name cols r v)
  = if same_name name k then v else cell j r.
Proof.
  unfold cell.
  induction cols as [| c cols IH]; intros [| x r] j k L H;
    try discriminate; try (destruct j; discriminate).
  destruct j as [| j]; simpl in *.
  - injection H as ->. reflexivity.
  - apply IH; [lia | exact H].
Qed.

Lemma cell_app_old (r : Row) v j :
  (j < List.length r)%nat -> cell j (r ++ [v]) = cell j r.
Proof. intro H. unfold cell. apply app_nth1. exact H. Qed.

Lemma cell_app_new (r : Row) v : cell (List.length r) (r ++ [v]) = v.
Proof. unfold cell. rewrite app_nth2, Nat.sub_diag by lia. reflexivity. Qed.

Lemma Forall2_map_right {A B} (f : A -> B) (l : list A) :
  Forall2 (fun a b => b = f a) l (map f l).
Proof. induction l; simpl; constructor; auto. Qed.

Lemma Forall2_weaken {A B} (P Q : A -> B -> Prop) l l' :
  Forall2 P l l' ->
  (forall a b, In a l -> P a b -> Q a b) ->
  Forall2 Q l l'.
Proof.
  induction 1 as [| a b l l' Hab H IH]; intro HPQ; constructor.
  - apply HPQ; [left; reflexivity | exact Hab].
  - apply IH. intros x y Hx. apply HPQ. right. exact Hx.
Qed.

Lemma Forall2_chain {A B C} (P : A -> B -> Prop) (Q : B -> C -> Prop)
    (R : A -> C -> Prop) l1 l2 l3 :
  Forall2 P l1 l2 -> Forall2 Q l2 l3 ->
  (forall a b c, In a l1 -> P a b -> Q b c -> R a c) ->
  Forall2 R l1 l3.
Proof.
  intro H. revert l3. induction H as [| a b l1 l2 Hab H IH]; intros l3 H3 HR.
  - inversion H3. constructor.
  - inversion H3 as [| b' c l2' l3' Hbc H3' ]; subst. constructor.
    + eapply HR; eauto. left; reflexivity.
    + apply IH; [exact H3' |]. intros x y z Hx. apply HR. right. exact Hx.
Qed.

(** One [withColumn]: the frame stays rectangular; a cell of a column of
    that name takes the new value, every other cell is kept; a name that
    is not there yet opens a last column. *)
Lemma df_withColumn_cells name c df i :
  resolve (columns df) (source c) = Ok i ->
  rectangular df ->
  exists out,
    df_withColumn name c df = Ok out
    /\ columns out
       = (if existsb (same_name name) (columns df)
          then map (fun k => if same_name name k then name else k) (columns df)
          else columns df ++ [name])%list
    /\ rectangular out
    /\ Forall2 (fun r r' =>
         (forall j k, nth_error (columns df) j = Some k ->
                      cell j r' = if same_name name k then eval c (cell i r)
                                  else cell j r)
         /\ (existsb (same_name name) (columns df) = false ->
             cell (List.length (columns df)) r' = eval c (cell i r)))
         (rows df) (rows out).
Proof.
  intros Hi Hrect. unfold df_withColumn. rewrite Hi.
  unfold rectangular in *. rewrite Forall_forall in Hrect.
  destruct (existsb (same_name name) (columns df)) eqn:Ex;
    eexists; (split; [reflexivity |]); cbn [columns rows];
    (split; [reflexivity |]); split.
  - apply Forall_forall. intros r' Hr'. apply in_map_iff in Hr' as (r & <- & Hr).
    rewrite length_replace_named, length_map. apply Hrect. exact Hr.
  - eapply Forall2_weaken; [apply Forall2_map_right |].
    cbv beta. intros r r' Hr ->. split; [| discriminate].
    intros j k Hk. apply cell_replace_named; [apply Hrect; exact Hr | exact Hk].
  - apply Forall_forall. intros r' Hr'. apply in_map_iff in Hr' as (r & <- & Hr).
    rewrite !length_app. simpl. rewrite (Hrect r Hr). reflexivity.
  - eapply Forall2_weaken; [apply Forall2_map_right |].
    cbv beta. intros r r' Hr ->. split.
    + intros j k Hk.
      assert (Hn : same_name name k = false).
      { destruct (same_name name k) eqn:E; [| reflexivity].
        assert (existsb (same_name name) (columns df) = true); [| congruence].
        apply existsb_exists. exists k. split; [| exact E].
        eapply nth_error_In; eauto. }
      rewrite Hn. apply cell_app_old. rewrite (Hrect r Hr).
      apply nth_error_Some. congruence.
    + intros _. rewrite <- (Hrect r Hr). apply cell_app_new.
Qed.

Lemma df_filter_rows c df i :
  resolve (columns df) (source c) = Ok i ->
  df_filter c df
  = Ok {| columns := columns df;
          rows := filter (fun r => match eval c (cell i r) with
                                   | VBool true => true
                                   | _ => false
                                   end) (rows df) |}.
Proof. intro H. unfold df_filter. rewrite H. reflexivity. Qed.

End Frames.

(** ** The transformation of any frame *)

Section Transformation.
Local Open Scope string_scope.
Local Open Scope list_scope.

Lemma df_withColumn_columns name c df i :
  resolve (columns df) (source c) = Ok i ->
  exists out,
    df_withColumn name c df = Ok out
    /\ columns out
       = if existsb (same_name name) (columns df)
         then map (fun k => if same_name name k then name else k) (columns df)
         else columns df ++ [name].
Proof.
  intro H. unfold df_withColumn. rewrite H.
  destruct (existsb (same_name name) (columns df)); eexists; split; reflexivity.
Qed.

Lemma df_withColumn_unresolved name c df e :
  resolve (columns df) (source c) = Raise e ->
  df_withColumn name c df = Raise e.
Proof. intro H. unfold df_withColumn. rewrite H. reflexivity. Qed.

Lemma existsb_rename m n cols :
  existsb (same_name n) (map (fun k => if same_name m k then m else k) cols)
  = existsb (same_name n) cols.
Proof.
  induction cols as [| k cols IH]; simpl; [reflexivity |].
  rewrite same_name_rename, IH. reflexivity.
Qed.

Lemma written_name_steps k :
  (fun k => if same_name "user_id" k then "user_id" else k)
    ((fun k => if same_name "domain" k then "domain" else k)
       ((fun k => if same_name "signup_date" k then "signup_date" else k) k))
  = written_name k.
Proof.
  unfold written_name. cbv beta.
  destruct (same_name "signup_date" k) eqn:Es.
  - rewrite (same_name_left _ "user_id" _ Es), (same_name_left _ "domain" _ Es).
    reflexivity.
  - destruct (same_name "domain" k) eqn:Ed.
    + rewrite (same_name_left _ "user_id" _ Ed). reflexivity.
    + reflexivity.
Qed.

(** The columns after the three [withColumn] calls. *)
Lemma transformed_schema tz df i_e i_s i_u :
  resolve (columns df) "email" = Ok i_e ->
  resolve (columns df) "signup_date" = Ok i_s ->
  resolve (columns df) "user_id" = Ok i_u ->
  exists out,
    transformed tz df = Ok out
    /\ columns out
       = map written_name (columns df)
         ++ (if existsb (same_name "domain") (columns df) then []
             else ["domain"]).
Proof.
  intros He Hs Hu. unfold transformed.
  rewrite (df_filter_rows _ df i_e) by exact He. cbn [and_then].
  set (df0 := {| columns := columns df; rows := _ |}).
  destruct (df_withColumn_columns "signup_date"
              (to_date (from_unixtime tz (col "signup_date"))) df0 i_s Hs)
    as (d1 & E1 & C1).
  rewrite E1. cbn [and_then]. cbn [columns df0] in C1.
  rewrite (existsb_same_name _ _ _ Hs) in C1.
  destruct (df_withColumn_columns "domain"
              (regexp_extract_tail (col "email") domain_pattern) d1 i_e)
    as (d2 & E2 & C2).
  { rewrite C1. cbn [source regexp_extract_tail col]. rewrite resolve_rename.
    exact He. }
  rewrite E2. cbn [and_then]. rewrite C1, existsb_rename in C2.
  destruct (df_withColumn_columns "user_id" (cast_int (col "user_id")) d2 i_u)
    as (d3 & E3 & C3).
  { rewrite C2. cbn [source cast_int col].
    destruct (existsb (same_name "domain") (columns df)).
    - rewrite !resolve_rename. exact Hu.
    - rewrite resolve_app_other by reflexivity. rewrite resolve_rename. exact Hu. }
  exists d3. split; [exact E3 |]. rewrite C3, C2.
  destruct (existsb (same_name "domain") (columns df)) eqn:Ed.
  - rewrite !existsb_rename, (existsb_same_name _ _ _ Hu).
    rewrite !map_map, app_nil_r. apply map_ext. intro k.
    apply written_name_steps.
  - rewrite existsb_app, existsb_rename, (existsb_same_name _ _ _ Hu).
    cbn [orb]. rewrite map_app, !map_map. f_equal.
    apply map_ext_in. intros k Hk.
    rewrite <- (written_name_steps k). cbv beta.
    assert (Hd : same_name "domain"
                   (if same_name "signup_date" k then "signup_date" else k)
                 = false).
    { rewrite same_name_rename.
      destruct (same_name "domain" k) eqn:E; [| reflexivity].
      rewrite <- Ed. symmetry. apply existsb_exists. eauto. }
    rewrite Hd. reflexivity.
Qed.

Lemma transformed_until_cast tz df i_e i_s :
  resolve (columns df) "email" = Ok i_e ->
  resolve (columns df) "signup_date" = Ok i_s ->
  exists d2,
    transformed tz df = df_withColumn "user_id" (cast_int (col "user_id")) d2
    /\ resolve (columns d2) "user_id" = resolve (columns df) "user_id".
Proof.
  intros He Hs. unfold transformed.
  rewrite (df_filter_rows _ df i_e) by exact He. cbn [and_then].
  set (df0 := {| columns := columns df; rows := _ |}).
  destruct (df_withColumn_columns "signup_date"
              (to_date (from_unixtime tz (col "signup_date"))) df0 i_s Hs)
    as (d1 & E1 & C1).
  rewrite E1. cbn [and_then]. cbn [columns df0] in C1.
  rewrite (existsb_same_name _ _ _ Hs) in C1.
  destruct (df_withColumn_columns "domain"
              (regexp_extract_tail (col "email") domain_pattern) d1 i_e)
    as (d2 & E2 & C2).
  { rewrite C1. cbn [source regexp_extract_tail col]. rewrite resolve_rename.
    exact He. }
  rewrite E2. cbn [and_then]. exists d2. split; [reflexivity |].
  rewrite C1, existsb_rename in C2. rewrite C2.
  destruct (existsb (same_name "domain") (columns df)).
  - rewrite !resolve_rename. reflexivity.
  - rewrite resolve_app_other by reflexivity. apply resolve_rename.
Qed.

Lemma transformed_unresolved tz df :
  transformable (columns df) = false ->
  exists msg, transformed tz df = Raise (AnalysisException msg).
Proof.
  unfold transformable. intro H.
  destruct (unique_column (columns df) "email") eqn:Ue.
  2:{ apply unique_column_false in Ue as [msg Ue]. exists msg.
      unfold transformed, df_filter. cbn [source rlike col]. rewrite Ue.
      reflexivity. }
  apply unique_column_resolve in Ue as [i_e He].
  destruct (unique_column (columns df) "signup_date") eqn:Us.
  2:{ apply unique_column_false in Us as [msg Us]. exists msg.
      unfold transformed. rewrite (df_filter_rows _ df i_e) by exact He.
      cbn [and_then]. rewrite df_withColumn_unresolved with (e := AnalysisException msg);
        [reflexivity | exact Us]. }
  apply unique_column_resolve in Us as [i_s Hs]. cbn [andb] in H.
  apply unique_column_false in H as [msg Hu]. exists msg.
  destruct (transformed_until_cast tz df i_e i_s He Hs) as (d2 & -> & R).
  apply df_withColumn_unresolved. cbn [source cast_int col]. rewrite R. exact Hu.
Qed.

(** X1: [transform_data] needs exactly the three columns it reads.  When
    the frame has one column named email, one named signup_date and one
    named user_id, whatever the case of the letters, the call returns,
    logs nothing, keeps the columns in their order, gives the columns it
    writes the spelling of the script, and adds domain last unless the
    frame has it.  Otherwise it logs one error record and raises an
    analysis error. *)
Theorem transform_data_needs_three_columns (w : World) (df : DataFrame)
    (s : State) :
  (transformable (columns df) = true ->
   exists out,
     transform_data w df s = (Ok out, s)
     /\ columns out
        = map written_name (columns df)
          ++ (if existsb (same_name "domain") (columns df) then []
              else ["domain"]))
  /\ (transformable (columns df) = false ->
      exists msg,
        transform_data w df s
        = (Raise (AnalysisException msg),
           {| session := session s; table := table s;
              log := log s ++ [(ERROR, ("Error during data transformation: "
                                        ++ msg)%string)];
              stdout := stdout s |})).
Proof.
  split; intro H.
  - unfold transformable in H.
    apply andb_true_iff in H as [H Hu]. apply andb_true_iff in H as [He Hs].
    apply unique_column_resolve in He as [i_e He].
    apply unique_column_resolve in Hs as [i_s Hs].
    apply unique_column_resolve in Hu as [i_u Hu].
    destruct (transformed_schema (session_tz w) df i_e i_s i_u He Hs Hu)
      as (out & E & C).
    exists out. split; [apply transform_data_ok; exact E | exact C].
  - destruct (transformed_unresolved (session_tz w) df H) as [msg E].
    exists msg. rewrite (transform_data_raise _ _ _ _ E). reflexivity.
Qed.

Lemma rectangular_filter p df :
  rectangular df ->
  rectangular {| columns := columns df; rows := filter p (rows df) |}.
Proof.
  unfold rectangular. cbn [columns rows]. rewrite !Forall_forall.
  intros H r Hr. apply filter_In in Hr as [Hr _]. auto.
Qed.

(** X2: on a frame whose rows all have one cell for each column,
    [transform_data] returns such a frame again: one row for each row
    whose email passes validation, in the same order.  In each of them
    the user_id cell is the cast of the old one, the signup_date cell the
    converted date, a domain cell the domain of the email, and every
    other cell is what it was; when the frame had no domain column, the
    domain is in a new last cell. *)
Theorem transform_data_rewrites_three_cells (tz : Z) (df : DataFrame)
    (i_e : nat) :
  rectangular df ->
  transformable (columns df) = true ->
  resolve (columns df) "email" = Ok i_e ->
  exists out,
    transformed tz df = Ok out
    /\ rectangular out
    /\ Forall2 (fun r r' =>
         (forall j c, nth_error (columns df) j = Some c ->
                      cell j r' = new_cell tz i_e j c r)
         /\ (existsb (same_name "domain") (columns df) = false ->
             cell (List.length (columns df)) r' = extract_domain (cell i_e r)))
         (filter (fun r => email_passes (cell i_e r)) (rows df))
         (rows out).
Proof.
  intros Hrect Ht He. unfold transformable in Ht.
  apply andb_true_iff in Ht as [Ht Hu]. apply andb_true_iff in Ht as [_ Hs].
  apply unique_column_resolve in Hs as [i_s Hs].
  apply unique_column_resolve in Hu as [i_u Hu].
  destruct (resolve_at _ _ _ He) as ((ce & Hce & Ne) & _).
  destruct (resolve_at _ _ _ Hs) as (_ & Us).
  destruct (resolve_at _ _ _ Hu) as ((cu & Hcu & Nu) & Uu).
  unfold transformed. rewrite (df_filter_rows _ df i_e) by exact He.
  cbn [and_then].
  rewrite (filter_ext _ (fun r => email_passes (cell i_e r)))
    by (intro r; apply rlike_passes).
  set (df0 := {| columns := columns df; rows := _ |}).
  assert (R0 : rectangular df0) by (apply rectangular_filter; exact Hrect).
  destruct (df_withColumn_cells "signup_date"
              (to_date (from_unixtime tz (col "signup_date"))) df0 i_s Hs R0)
    as (d1 & E1 & C1 & R1 & F1).
  rewrite E1. cbn [and_then]. cbn [columns rows df0] in C1, F1.
  rewrite (existsb_same_name _ _ _ Hs) in C1.
  assert (He1 : resolve (columns d1) "email" = Ok i_e)
    by (rewrite C1, resolve_rename; exact He).
  destruct (df_withColumn_cells "domain"
              (regexp_extract_tail (col "email") domain_pattern) d1 i_e He1 R1)
    as (d2 & E2 & C2 & R2 & F2).
  rewrite E2. cbn [and_then]. rewrite C1, existsb_rename in C2.
  rewrite C1, existsb_rename, length_map in F2.
  assert (Hu2 : resolve (columns d2) "user_id" = Ok i_u).
  { rewrite C2. destruct (existsb (same_name "domain") (columns df)).
    - rewrite !resolve_rename. exact Hu.
    - rewrite resolve_app_other by reflexivity. rewrite resolve_rename. exact Hu. }
  destruct (df_withColumn_cells "user_id" (cast_int (col "user_id")) d2 i_u
              Hu2 R2) as (d3 & E3 & C3 & R3 & F3).
  exists d3. split; [exact E3 |]. split; [exact R3 |].
  (* the name at a position of the frame after two steps *)
  assert (Hname2 : forall j c, nth_error (columns df) j = Some c ->
            exists c2, nth_error (columns d2) j = Some c2
                       /\ forall n, same_name n c2 = same_name n c).
  { intros j c Hc. rewrite C2.
    destruct (existsb (same_name "domain") (columns df)).
    - eexists. split.
      + rewrite !nth_error_map, Hc. reflexivity.
      + intro n. rewrite !same_name_rename. reflexivity.
    - eexists. split.
      + rewrite nth_error_app1
          by (rewrite length_map; apply nth_error_Some; congruence).
        rewrite nth_error_map, Hc. reflexivity.
      + intro n. apply same_name_rename. }
  assert (Hname1 : forall j c, nth_error (columns df) j = Some c ->
            nth_error
              (map (fun k => if same_name "signup_date" k then "signup_date"
                             else k) (columns df)) j
            = Some (if same_name "signup_date" c then "signup_date" else c)).
  { intros j c Hc. rewrite nth_error_map, Hc. reflexivity. }
  (* the cells the later steps read are those of the row they started from *)
  assert (Hkeep1 : forall r r1,
            (forall j k, nth_error (columns df) j = Some k ->
               cell j r1 = if same_name "signup_date" k
                           then eval (to_date (from_unixtime tz (col "signup_date")))
                                  (cell i_s r)
                           else cell j r) ->
            cell i_e r1 = cell i_e r /\ cell i_u r1 = cell i_u r).
  { intros r r1 H1. split.
    - rewrite (H1 _ _ Hce), (same_name_left _ "signup_date" _ Ne). reflexivity.
    - rewrite (H1 _ _ Hcu), (same_name_left _ "signup_date" _ Nu). reflexivity. }
  assert (F12 : Forall2 (fun r r2 =>
            (forall j k, nth_error (columns df) j = Some k ->
               cell j r2 = if same_name "domain" k
                           then extract_domain (cell i_e r)
                           else if same_name "signup_date" k
                                then convert_signup_date tz (cell j r)
                                else cell j r)
            /\ (existsb (same_name "domain") (columns df) = false ->
                cell (List.length (columns df)) r2
                = extract_domain (cell i_e r)))
            (filter (fun r => email_passes (cell i_e r)) (rows df))
            (rows d2)).
  { eapply Forall2_chain; [exact F1 | exact F2 |].
    cbv beta. intros r r1 r2 _ [H1 _] [H2 H2'].
    destruct (Hkeep1 r r1 H1) as [Ke _]. split.
    - intros j k Hk. rewrite (H2 _ _ (Hname1 _ _ Hk)), same_name_rename, Ke.
      rewrite (H1 _ _ Hk). unfold extract_domain, convert_signup_date.
      destruct (same_name "signup_date" k) eqn:Ek; [| reflexivity].
      rewrite (Us _ _ Hk Ek). reflexivity.
    - intro Hd. rewrite (H2' Hd), Ke. reflexivity. }
  eapply Forall2_chain; [exact F12 | exact F3 |].
  cbv beta. intros r r2 r3 _ [H2 H2'] [H3 _].
  assert (Ku : cell i_u r2 = cell i_u r).
  { rewrite (H2 _ _ Hcu), (same_name_left _ "domain" _ Nu),
      (same_name_left _ "signup_date" _ Nu). reflexivity. }
  split.
  - intros j c Hc. destruct (Hname2 _ _ Hc) as (c2 & Hc2 & Hsame).
    rewrite (H3 _ _ Hc2), Hsame, Ku. unfold new_cell, coerce_user_id.
    destruct (same_name "user_id" c) eqn:Ec.
    + rewrite (Uu _ _ Hc Ec). reflexivity.
    + apply H2. exact Hc.
  - intro Hd.
    assert (Hlast : nth_error (columns d2) (List.length (columns df))
                    = Some "domain").
    { rewrite C2, Hd. rewrite nth_error_app2 by (rewrite length_map; lia).
      rewrite length_map, Nat.sub_diag. reflexivity. }
    rewrite (H3 _ _ Hlast). cbn [same_name]. apply H2'. exact Hd.
Qed.

Lemma transform_data_rewrites_three_cells_witness :
  exists out,
    transformed 0
      {| columns := ["Name"; "EMAIL"; "user_id"; "signup_date"];
         rows := [[VStr "Ann"; VStr "ann@example.com"; VStr "7";
                   VStr "1700000000"];
                  [VStr "Ben"; VStr "bad-email"; VStr "8"; VNull]] |}
    = Ok out
    /\ rectangular out.
Proof.
  destruct (transform_data_rewrites_three_cells 0
              {| columns := ["Name"; "EMAIL"; "user_id"; "signup_date"];
                 rows := [[VStr "Ann"; VStr "ann@example.com"; VStr "7";
                           VStr "1700000000"];
                          [VStr "Ben"; VStr "bad-email"; VStr "8"; VNull]] |}
              1)
    as (out & E & R & _).
  - repeat constructor.
  - reflexivity.
  - reflexivity.
  - exists out. split; [exact E | exact R].
Defined.

End Transformation.

(** ** The stages of a run *)

Section Run.
Local Open Scope string_scope.
Local Open Scope list_scope.





(** X4: the script does not start the pipeline without the password.
    When the variable that names the secret file is not set, opening the
    file raises a [TypeError] that nothing catches: the script ends with
    status 1 and has done nothing.  When the file named is missing, the
    script prints one line and exits with status 1.  In both cases no
    Spark session was started, the table is untouched and the log is
    empty of any new record. *)
Theorem main_needs_the_password (w : World) (s : State) :
  (environ w "SECRET_POSTGRES_PASSWORD_PATH" = None ->
   exit_status (fst (main w s)) = 1%Z /\ snd (main w s) = s)
  /\ (forall p,
        environ w "SECRET_POSTGRES_PASSWORD_PATH" = Some p ->
        secrets w p = None ->
        main w s
        = (Raise (SystemExit 1),
           {| session := session s; table := table s; log := log s;
              stdout := stdout s
                        ++ ["Error: PostgreSQL password secret not found."] |})
        /\ exit_status (fst (main w s)) = 1%Z).
Proof.
  split.
  - intro H. unfold main, get_postgres_password. rewrite H. split; reflexivity.
  - intros p Hp Hs.
    assert (E : main w s
                = (Raise (SystemExit 1),
                   {| session := session s; table := table s; log := log s;
                      stdout := stdout s
                                ++ ["Error: PostgreSQL password secret not found."] |})).
    { unfold main, get_postgres_password. rewrite Hp.
      unfold bind at 1. unfold try_except at 1. rewrite Hs. reflexivity. }
    rewrite E. split; reflexivity.
Qed.

(** Whether the load raises, and what, does not depend on the state it
    starts from. *)
Lemma load_data_raises_alike
    w df jdbc_url table_name username password s0 s1 :
  fst (load_data_to_postgresql w df jdbc_url table_name username password s0)
  = fst (load_data_to_postgresql w df jdbc_url table_name username password s1).
Proof.
  destruct jdbc_url as [u |], table_name as [t |], username as [user |];
    try (rewrite !load_data_failure by auto; reflexivity).
  destruct (db_fault w) as [k |] eqn:Ef.
  - rewrite !(load_data_fault _ _ _ _ _ _ _ _ Ef). reflexivity.
  - rewrite !load_data_ok by exact Ef. reflexivity.
Qed.

(** The error record of the load is the last one, after the records
    that were there. *)
Lemma load_data_raise_log
    w df jdbc_url table_name username password s e s' :
  load_data_to_postgresql w df jdbc_url table_name username password s
  = (Raise e, s') ->
  log s' = log s ++ [(ERROR, ("Error loading data to PostgreSQL: "
                              ++ str e)%string)]
  /\ stdout s' = stdout s.
Proof.
  destruct jdbc_url as [u |], table_name as [t |], username as [user |];
    try (rewrite load_data_failure by auto; intro E; injection E as <- <-;
         split; reflexivity).
  destruct (db_fault w) as [k |] eqn:Ef.
  - rewrite (load_data_fault _ _ _ _ _ _ _ _ Ef). intro E.
    injection E as <- <-. split; reflexivity.
  - rewrite load_data_ok by exact Ef. discriminate.
Qed.

(** X6: a run that fails says where.  When [etl_pipeline] raises, the
    exception is the one that one of the three stages raised, the later
    stages were not run, and the last record of the log is the error
    record of that stage: the words of [extract_data] with the name of
    the file when the extraction raised, those of [transform_data] when
    the extraction returned and the transformation raised, those of
    [load_data_to_postgresql] when both returned and the load raised,
    each followed by the text of the exception.  Nothing is logged before
    it but, after a successful extraction, the INFO record of the
    extraction; and the line that announces completion is not
    printed. *)
Theorem failed_run_logs_its_stage
    (w : World) (input_file : string)
    (jdbc_url table_name username : option string) (password : string)
    (s : State) (e : Exception) (s' : State) :
  etl_pipeline w input_file jdbc_url table_name username password s
  = (Raise e, s') ->
  stdout s' = stdout s
  /\ (((forall s0, fst (extract_data w input_file s0) = Raise e)
       /\ log s'
          = log s ++ [(ERROR, ("Error loading data from " ++ input_file
                               ++ ": " ++ str e)%string)])
      \/ (exists df,
            (forall s0, fst (extract_data w input_file s0) = Ok df)
            /\ (forall s0, fst (transform_data w df s0) = Raise e)
            /\ log s'
               = log s ++ [(INFO, ("Successfully loaded " ++ input_file
                                   ++ " into a DataFrame.")%string);
                           (ERROR, ("Error during data transformation: "
                                    ++ str e)%string)])
      \/ (exists df out,
            (forall s0, fst (extract_data w input_file s0) = Ok df)
            /\ (forall s0, fst (transform_data w df s0) = Ok out)
            /\ (forall s0,
                  fst (load_data_to_postgresql w out jdbc_url table_name
                         username password s0) = Raise e)
            /\ log s'
               = log s ++ [(INFO, ("Successfully loaded " ++ input_file
                                   ++ " into a DataFrame.")%string);
                           (ERROR, ("Error loading data to PostgreSQL: "
                                    ++ str e)%string)])).
Proof.
  unfold etl_pipeline. unfold bind at 1. cbn [set_session]. unfold bind at 1.
  destruct (read_csv (files w input_file)) as [df | e0] eqn:Er.
  2:{ pose proof Er as Er'.
      apply read_csv_raises in Er as (why & Hm & ->).
      rewrite (extract_data_unreadable _ _ _ _ Hm).
      intro E. injection E as <- <-. cbn [log stdout].
      split; [reflexivity | left]. split; [| reflexivity].
      intro s0. rewrite extract_data_outcome. exact Er'. }
  rewrite (extract_data_readable _ _ _ _ Er). unfold bind at 1.
  assert (Hx : forall s0, fst (extract_data w input_file s0) = Ok df)
    by (intro s0; rewrite extract_data_outcome; exact Er).
  destruct (transformed (session_tz w) df) as [out | e0] eqn:Et.
  2:{ rewrite (transform_data_raise _ _ _ _ Et).
      intro E. injection E as <- <-. cbn [log stdout].
      split; [reflexivity | right; left]. exists df.
      split; [exact Hx |]. split.
      - intro s0. rewrite (transform_data_raise _ _ _ _ Et). reflexivity.
      - rewrite <- app_assoc. reflexivity. }
  rewrite (transform_data_ok _ _ _ _ Et). unfold bind at 1.
  match goal with
  | |- context [load_data_to_postgresql w out jdbc_url table_name username
                  password ?s1] =>
      destruct (load_data_to_postgresql w out jdbc_url table_name username
                  password s1) as [[[] | e1] s2] eqn:El
  end.
  { run_python. discriminate. }
  intro E. injection E as <- <-.
  pose proof (load_data_raise_log _ _ _ _ _ _ _ _ _ El) as [Hl Hs].
  cbn [log stdout] in Hl, Hs.
  split; [exact Hs | right; right]. exists df, out.
  split; [exact Hx |]. split.
  - intro s0. rewrite (transform_data_ok _ _ _ _ Et). reflexivity.
  - split.
    + intro s0. erewrite load_data_raises_alike. rewrite El. reflexivity.
    + rewrite Hl, <- app_assoc. reflexivity.
Qed.

Lemma failed_run_logs_its_stage_witness :
  log (snd (etl_pipeline (world missing 0) "data.csv"
              (Some "jdbc:postgresql://db:5432/etl") (Some "users")
              (Some "etl") "s3cret" (initial [])))
  = [(ERROR, "Error loading data from data.csv: Path does not exist: file:/app/data.csv")].
Proof.
  destruct (failed_run_logs_its_stage (world missing 0) "data.csv"
              (Some "jdbc:postgresql://db:5432/etl") (Some "users")
              (Some "etl") "s3cret" (initial [])
              (AnalysisException "Path does not exist: file:/app/data.csv")
              (snd (etl_pipeline (world missing 0) "data.csv"
                      (Some "jdbc:postgresql://db:5432/etl") (Some "users")
                      (Some "etl") "s3cret" (initial [])))
              eq_refl)
    as (_ & [[_ L] | [(df & H & _) | (df & out & H & _)]]).
  - exact L.
  - specialize (H (initial [])). discriminate H.
  - specialize (H (initial [])). discriminate H.
Defined.

(** X7: a file that lacks one of the three columns [transform_data]
    reads (an empty file has none) is still extracted, and stops the run
    in the transformation: the run raises an analysis error, the log
    holds the INFO record of the extraction and the error record of the
    transformation, and the table is as it was. *)
Theorem missing_column_stops_in_transformation
    (w : World) (input_file : string)
    (jdbc_url table_name username : option string) (password : string)
    (s : State) (df : DataFrame) :
  read_csv (files w input_file) = Ok df ->
  transformable (columns df) = false ->
  exists msg,
    etl_pipeline w input_file jdbc_url table_name username password s
    = (Raise (AnalysisException msg),
       {| session := Active; table := table s;
          log := log s
                 ++ [(INFO, ("Successfully loaded " ++ input_file
                             ++ " into a DataFrame.")%string);
                     (ERROR, ("Error during data transformation: "
                              ++ msg)%string)];
          stdout := stdout s |}).
Proof.
  intros Hr Ht.
  destruct (transformed_unresolved (session_tz w) df Ht) as [msg E].
  exists msg. unfold etl_pipeline.
  unfold bind at 1. cbn [set_session]. unfold bind at 1.
  rewrite (extract_data_readable _ _ _ _ Hr). unfold bind at 1.
  rewrite (transform_data_raise _ _ _ _ E). cbn [session table log stdout].
  rewrite <- app_assoc. reflexivity.
Qed.

Lemma missing_column_stops_in_transformation_witness :
  exists msg,
    fst (etl_pipeline (world Blank 0) "data.csv"
           (Some "jdbc:postgresql://db:5432/etl") (Some "users")
           (Some "etl") "s3cret" (initial []))
    = Raise (AnalysisException msg).
Proof.
  destruct (missing_column_stops_in_transformation (world Blank 0) "data.csv"
              (Some "jdbc:postgresql://db:5432/etl") (Some "users")
              (Some "etl") "s3cret" (initial [])
              {| columns := []; rows := [] |} eq_refl eq_refl) as [msg E].
  exists msg. rewrite E. reflexivity.
Defined.

End Run.

(** ** Numbers with a fraction, and domains *)

Section Cells.
Local Open Scope string_scope.
Local Open Scope list_scope.

Lemma chars_text w : chars (text w) = w.
Proof. apply list_ascii_of_string_of_list_ascii. Qed.

Lemma int_part_fraction bits f : forall w acc,
  forallb is_digit w = true ->
  int_part bits acc (w ++ "."%char :: f)
  = match int_part bits acc w with
    | Some (a, _) => Some (a, f)
    | None => None
    end.
Proof.
  induction w as [| c w IH]; intros acc H; cbn [app int_part].
  - reflexivity.
  - cbn [forallb] in H. apply andb_true_iff in H as [Hc Hw].
    unfold is_digit in Hc. destruct (digit_of c) as [d |] eqn:Ed; [| discriminate].
    destruct (digit_not_special _ _ Ed) as (-> & _).
    destruct (acc <? Z.quot (min_value bits) 10)%Z; [reflexivity |].
    destruct (wrap bits (acc * 10 - d) >? 0)%Z; [reflexivity |].
    apply IH. exact Hw.
Qed.

Lemma is_number_digits w :
  is_number w = true -> w <> [] /\ forallb is_digit w = true.
Proof.
  unfold is_number. destruct w; [discriminate |]. intro H.
  split; [discriminate | exact H].
Qed.

Lemma fraction_no_space w f :
  forallb (fun c => negb (is_space c)) w = true ->
  forallb is_digit f = true ->
  forallb (fun c => negb (is_space c)) (w ++ "."%char :: f) = true.
Proof.
  intros Hw Hf. rewrite forallb_app, Hw. cbn [forallb andb].
  change (negb (is_space "."%char)) with true. cbn [andb].
  apply digits_no_space. exact Hf.
Qed.

Lemma int_part_digits_rest bits : forall w z acc r,
  forallb is_digit w = true ->
  int_part bits z w = Some (acc, r) -> r = [].
Proof.
  induction w as [| a l IH]; intros z acc r Hd; cbn [int_part].
  - intro E. injection E as _ <-. reflexivity.
  - cbn [forallb] in Hd. apply andb_true_iff in Hd as [Ha Hl].
    unfold is_digit in Ha.
    destruct (digit_of a) as [y |] eqn:Ey; [| discriminate].
    destruct (digit_not_special _ _ Ey) as (-> & _).
    destruct (z <? Z.quot (min_value bits) 10)%Z; [discriminate |].
    destruct (wrap bits (z * 10 - y) >? 0)%Z; [discriminate |].
    apply IH. exact Hl.
Qed.

Lemma to_integral_fraction bits (sign d f : word) :
  sign = [] \/ sign = ["-"%char] \/ sign = ["+"%char] ->
  is_number d = true ->
  forallb is_digit f = true ->
  to_integral bits (text (sign ++ d ++ "."%char :: f))
  = to_integral bits (text (sign ++ d)).
Proof.
  intros Hsign Hd Hf. apply is_number_digits in Hd as [Hne Hd].
  destruct d as [| c d]; [congruence |].
  pose proof Hd as Hcd. cbn [forallb] in Hcd.
  apply andb_true_iff in Hcd as [Hc _].
  unfold is_digit in Hc. destruct (digit_of c) as [x |] eqn:Ex; [| discriminate].
  destruct (digit_not_special _ _ Ex) as (_ & Hm & Hp & _).
  unfold to_integral. rewrite !chars_text.
  assert (Hns : forallb (fun c => negb (is_space c)) (sign ++ c :: d) = true).
  { rewrite forallb_app. rewrite (digits_no_space _ Hd).
    destruct Hsign as [-> | [-> | ->]]; reflexivity. }
  rewrite app_assoc.
  rewrite (trim_id _ Hns), (trim_id _ (fraction_no_space _ _ Hns Hf)).
  assert (Hbody :
    match int_part bits 0 ((c :: d) ++ "."%char :: f) with
    | Some (_, fraction) => Some (forallb is_digit fraction)
    | None => None
    end
    = match int_part bits 0 (c :: d) with
      | Some (_, fraction) => Some (forallb is_digit fraction)
      | None => None
      end
    /\ option_map fst (int_part bits 0 ((c :: d) ++ "."%char :: f))
       = option_map fst (int_part bits 0 (c :: d))).
  { rewrite int_part_fraction by exact Hd.
    destruct (int_part bits 0 (c :: d)) as [[acc r] |] eqn:Ei;
      [| split; reflexivity].
    rewrite (int_part_digits_rest _ _ _ _ _ Hd Ei), Hf. split; reflexivity. }
  destruct Hbody as [Hfrac Hacc].
  change (c :: d ++ "."%char :: f) with ((c :: d) ++ "."%char :: f) in *.
  destruct Hsign as [-> | [-> | ->]]; cbn [app]; cbv zeta;
    [rewrite Hm, Hp
    | change (Ascii.eqb "-" "-") with true
    | change (Ascii.eqb "+" "-") with false;
      change (Ascii.eqb "+" "+") with true];
    cbn [orb];
    change (c :: d ++ "."%char :: f) with ((c :: d) ++ "."%char :: f);
    destruct (int_part bits 0 ((c :: d) ++ "."%char :: f)) as [[a1 r1] |],
             (int_part bits 0 (c :: d)) as [[a2 r2] |];
    cbn [option_map fst] in Hacc; try discriminate; try reflexivity;
    injection Hacc as ->; injection Hfrac as ->; reflexivity.
Qed.

(** X8: a fraction is dropped, not rounded.  Text made of an optional
    sign, digits, a dot and digits reads as the same integer as the text
    before the dot, for [user_id] (32 bits) and for the seconds of
    [signup_date] (64 bits): the time stamps with a fraction that the
    generator writes give the date of their whole second. *)
Theorem fraction_is_dropped (tz : Z) (sign d f : word) :
  sign = [] \/ sign = ["-"%char] \/ sign = ["+"%char] ->
  is_number d = true ->
  forallb is_digit f = true ->
  coerce_user_id (VStr (text (sign ++ d ++ "."%char :: f)))
  = coerce_user_id (VStr (text (sign ++ d)))
  /\ convert_signup_date tz (VStr (text (sign ++ d ++ "."%char :: f)))
     = convert_signup_date tz (VStr (text (sign ++ d))).
Proof.
  intros Hs Hd Hf. unfold coerce_user_id, convert_signup_date.
  cbn [eval cast_int to_date from_unixtime col].
  rewrite !(to_integral_fraction _ _ _ _ Hs Hd Hf). split; reflexivity.
Qed.

Lemma fraction_is_dropped_witness :
  coerce_user_id (VStr "-7.9") = VInt (-7)
  /\ convert_signup_date 0 (VStr "1700000000.987654") = VDate 2023 11 14.
Proof.
  destruct (fraction_is_dropped 0 ["-"%char] ["7"%char] ["9"%char]
              (or_intror (or_introl eq_refl)) eq_refl eq_refl) as [H _].
  destruct (fraction_is_dropped 0 [] (chars "1700000000") (chars "987654")
              (or_introl eq_refl) eq_refl eq_refl) as [_ H'].
  split.
  - etransitivity; [exact H | vm_compute; reflexivity].
  - etransitivity; [exact H' | vm_compute; reflexivity].
Defined.

Lemma take_while_nil_iff p w :
  take_while p w = [] <-> w = [] \/ exists c rest, w = c :: rest /\ p c = false.
Proof.
  destruct w as [| c w]; simpl.
  - split; auto.
  - destruct (p c) eqn:E; split.
    + discriminate.
    + intros [H | (c' & rest & H & Hc)]; [discriminate |].
      injection H as <- _. congruence.
    + intros _. right. eauto.
    + reflexivity.
Qed.

(** X9: the domain of a validated record is text, never null: a part of
    the email that starts right after the [@], made only of letters,
    digits, dots and hyphens, and shorter than the email.  It is empty
    exactly when the character after the [@] is not one of those: such an
    email passes validation and gets an empty domain. *)
Theorem domain_of_a_validated_email (s : string) :
  matches email_pattern (chars s) = true ->
  exists d,
    extract_domain (VStr s) = VStr (text d)
    /\ forallb domain_char d = true
    /\ (exists rest, after_at (chars s) = d ++ rest)
    /\ (List.length d < List.length (chars s))%nat
    /\ (d = [] <-> exists c rest, after_at (chars s) = c :: rest
                                  /\ domain_char c = false).
Proof.
  intro H. exists (take_while domain_char (after_at (chars s))).
  split; [apply extract_domain_valid; exact H |].
  split; [apply take_while_all |].
  split; [apply take_while_split |].
  apply email_pattern_shape in H
    as (l & x & y & E & Hl & Hx & _ & Pl & _).
  rewrite E, (after_at_app _ _ Pl). split.
  - destruct (take_while_split domain_char (x ++ "."%char :: y)) as [rest Hr].
    assert (L : (List.length (take_while domain_char (x ++ "."%char :: y))
                 <= List.length (x ++ "."%char :: y))%nat).
    { rewrite Hr at 2. rewrite length_app. lia. }
    rewrite length_app. cbn [List.length]. lia.
  - rewrite take_while_nil_iff. split.
    + intros [Hn | Hc]; [| exact Hc]. destruct x; [congruence | discriminate].
    + intro Hc. right. exact Hc.
Qed.

Lemma domain_of_a_validated_email_witness :
  extract_domain (VStr "a@_b.c") = VStr "".
Proof.
  destruct (domain_of_a_validated_email "a@_b.c" eq_refl)
    as (d & E & _ & _ & _ & Hd).
  rewrite E. f_equal.
  replace d with (@nil ascii); [reflexivity |].
  symmetry. apply Hd. exists "_"%char, (chars "b.c"). split; reflexivity.
Defined.

End Cells.

(** ** The generator *)

Section Writer.
Import Generator.
Local Open Scope Z_scope.
Context {F stamp : Type} {lib : FakerLib F stamp}.

(** The progress check of one pass of the loop touches the screen
    only. *)
Lemma progress_check_frame (tq : bool) (thr : option Z) (user_id n : Z)
    (s : @State F stamp) :
  exists r s1,
    (if negb tq return @G F stamp unit then
       match thr return @G F stamp unit with
       | Some t =>
           r <- py_mod user_id t ;;
           if r =? 0 then print (Generated user_id n) else ret tt
       | None =>
           raise (UnboundLocalError
                    "local variable 'progress_threshold' referenced before assignment")
       end
     else ret tt) s = (r, s1)
    /\ disk s1 = disk s /\ locked s1 = locked s /\ faker s1 = faker s.
Proof.
  destruct tq; cbn [negb]; [do 2 eexists; split; [reflexivity | auto] |].
  destruct thr as [t |]; [| do 2 eexists; split; [reflexivity | auto]].
  unfold bind, py_mod. destruct (t =? 0).
  - do 2 eexists. split; [reflexivity | auto].
  - cbn [ret]. destruct (user_id mod t =? 0);
      do 2 eexists; (split; [reflexivity | auto]).
Qed.

(** Asking Faker for a record touches the state of Faker only. *)
Lemma create_fake_user_data_frame (a b : string) (s : @State F stamp) :
  exists r s1,
    create_fake_user_data a b s = (r, s1)
    /\ disk s1 = disk s /\ locked s1 = locked s /\ screen s1 = screen s.
Proof.
  unfold create_fake_user_data, bind, with_faker, lift, ret.
  destruct (fake_name (faker s)) as [nm f1]. cbn [faker disk locked screen].
  destruct (fake_unique_ascii_free_email f1) as [[e | x] f2];
    cbn [faker disk locked screen];
    [| do 2 eexists; split; [reflexivity | auto]].
  destruct (fake_date_time_between a b f2) as [[t | x] f3];
    cbn [faker disk locked screen];
    do 2 eexists; (split; [reflexivity | auto]).
Qed.

Lemma writerow_appends (p : string) (l : @Line stamp) (s : @State F stamp) (L : list (@Line stamp)) :
  disk s p = Some L ->
  exists s1,
    writerow p l s = (Ok tt, s1)
    /\ disk s1 p = Some (L ++ [l])
    /\ (forall q, String.eqb q p = false -> disk s1 q = disk s q)
    /\ locked s1 = locked s /\ screen s1 = screen s /\ faker s1 = faker s.
Proof.
  intro H. unfold writerow, set_file. rewrite H. eexists.
  split; [reflexivity |]. cbn [disk locked screen faker].
  rewrite String.eqb_refl. split; [reflexivity |].
  split; [| auto]. intros q Hq. rewrite Hq. reflexivity.
Qed.

(** The loop: whatever happens, the file grows by the records of the
    first identifiers, in their order, and no other file changes. *)
Lemma for_user_id_prefix (tq : bool) (thr : option Z) (p : string) (n : Z)
    (a b : string) :
  forall (ids : list Z) (s : @State F stamp) (L : list (@Line stamp)) r s',
    for_user_id tq thr p n a b ids s = (r, s') ->
    disk s p = Some L ->
    exists (k : nat) (recs : list (@Line stamp)),
      disk s' p = Some (L ++ recs)
      /\ map line_id recs = map Some (firstn k ids)
      /\ (k <= List.length ids)%nat
      /\ (r = Ok tt -> k = List.length ids)
      /\ (forall q, String.eqb q p = false -> disk s' q = disk s q)
      /\ locked s' = locked s.
Proof.
  induction ids as [| user_id ids IH]; intros s L r s' E HL.
  - cbn [for_user_id ret] in E. injection E as <- <-.
    exists 0%nat, []. rewrite app_nil_r. repeat split; auto.
  - cbn [for_user_id] in E. unfold bind at 1 in E.
    destruct (progress_check_frame tq thr user_id n s)
      as (r1 & s1 & E1 & D1 & K1 & _).
    match type of E with
    | context [let (_, _) := ?m s in _] =>
        replace (m s) with (r1, s1) in E by (symmetry; exact E1)
    end.
    destruct r1 as [[] | e1].
    2:{ injection E as <- <-. exists 0%nat, []. rewrite app_nil_r, D1.
        repeat split; auto; [simpl; lia | discriminate]. }
    unfold bind at 1 in E.
    destruct (create_fake_user_data_frame a b s1)
      as (r2 & s2 & E2 & D2 & K2 & _).
    rewrite E2 in E. destruct r2 as [[[nm em] st] | e2].
    2:{ injection E as <- <-. exists 0%nat, []. rewrite app_nil_r, D2, D1.
        repeat split; auto; [simpl; lia | discriminate | congruence]. }
    unfold bind at 1 in E.
    assert (HL2 : disk s2 p = Some L) by (rewrite D2, D1; exact HL).
    destruct (writerow_appends p (Record user_id nm em st) s2 L HL2)
      as (s3 & E3 & D3 & O3 & K3 & _).
    rewrite E3 in E.
    destruct (IH s3 _ r s' E D3) as (k & recs & Dk & Ik & Lk & Rk & Ok' & Kk).
    exists (S k), (Record user_id nm em st :: recs).
    rewrite <- app_assoc in Dk. split; [exact Dk |].
    split; [cbn [map firstn line_id]; rewrite Ik; reflexivity |].
    split; [simpl; lia |]. split; [intro Hr; simpl; rewrite (Rk Hr); reflexivity |].
    split; [| congruence].
    intros q Hq. rewrite (Ok' q Hq), (O3 q Hq), D2, D1. reflexivity.
Qed.

(** The progress lines of a run of identifiers. *)
Lemma progress_check_ok (tq : bool) (thr : option Z) (user_id n : Z)
    (s : @State F stamp) :
  tq = true \/ (exists t, thr = Some t /\ t <> 0) ->
  exists s1,
    (if negb tq return @G F stamp unit then
       match thr return @G F stamp unit with
       | Some t =>
           r <- py_mod user_id t ;;
           if r =? 0 then print (Generated user_id n) else ret tt
       | None =>
           raise (UnboundLocalError
                    "local variable 'progress_threshold' referenced before assignment")
       end
     else ret tt) s = (Ok tt, s1)
    /\ disk s1 = disk s /\ locked s1 = locked s /\ faker s1 = faker s
    /\ screen s1
       = (screen s
          ++ map (fun i => Generated i n)
               (if tq then []
                else match thr with
                     | Some t => filter (fun i => i mod t =? 0) [user_id]
                     | None => []
                     end))%list.
Proof.
  intro H. destruct tq.
  { eexists. split; [reflexivity |]. cbn [map]. rewrite app_nil_r. auto. }
  destruct H as [H | (t & -> & Ht)]; [discriminate |].
  - cbn [negb filter]. unfold bind, py_mod.
    apply Z.eqb_neq in Ht. rewrite Ht. cbn [ret].
    destruct (user_id mod t =? 0); eexists; (split; [reflexivity |]);
      cbn [disk locked faker screen map]; rewrite ?app_nil_r; auto.
Qed.

Lemma create_fake_user_data_ok (a b : string) (s : @State F stamp) :
  dependable lib ->
  exists row s1,
    create_fake_user_data a b s = (Ok row, s1)
    /\ disk s1 = disk s /\ locked s1 = locked s /\ screen s1 = screen s.
Proof.
  intros [He Hd].
  unfold create_fake_user_data, bind, with_faker, lift, ret.
  destruct (fake_name (faker s)) as [nm f1]. cbn [faker disk locked screen].
  destruct (He f1) as (e & f2 & ->). cbn [faker disk locked screen].
  destruct (Hd a b f2) as (t & f3 & ->). cbn [faker disk locked screen].
  do 2 eexists. split; [reflexivity | auto].
Qed.

Lemma for_user_id_completes (tq : bool) (thr : option Z) (p : string) (n : Z)
    (a b : string) :
  dependable lib ->
  tq = true \/ (exists t, thr = Some t /\ t <> 0) ->
  forall (ids : list Z) (s : @State F stamp) (L : list (@Line stamp)),
    disk s p = Some L ->
    exists s' (recs : list (@Line stamp)),
      for_user_id tq thr p n a b ids s = (Ok tt, s')
      /\ disk s' p = Some (L ++ recs)
      /\ map line_id recs = map Some ids
      /\ screen s'
         = (screen s
            ++ map (fun i => Generated i n)
                 (if tq then []
                  else match thr with
                       | Some t => filter (fun i => i mod t =? 0) ids
                       | None => []
                       end))%list
      /\ (forall q, String.eqb q p = false -> disk s' q = disk s q)
      /\ locked s' = locked s.
Proof.
  intros Hdep Hthr. induction ids as [| user_id ids IH]; intros s L HL.
  - exists s, []. split; [reflexivity |]. rewrite app_nil_r.
    split; [exact HL |]. split; [reflexivity |].
    split; [| auto]. destruct tq; [| destruct thr]; cbn [filter map];
      rewrite app_nil_r; reflexivity.
  - cbn [for_user_id]. unfold bind at 1.
    destruct (progress_check_ok tq thr user_id n s Hthr)
      as (s1 & E1 & D1 & K1 & _ & S1).
    match goal with
    | |- context [let (_, _) := ?m s in _] =>
        replace (m s) with (@Ok unit tt, s1) by (symmetry; exact E1)
    end.
    unfold bind at 1.
    destruct (create_fake_user_data_ok a b s1 Hdep)
      as ([[nm em] st] & s2 & E2 & D2 & K2 & S2).
    rewrite E2. unfold bind at 1.
    assert (HL2 : disk s2 p = Some L) by (rewrite D2, D1; exact HL).
    destruct (writerow_appends p (Record user_id nm em st) s2 L HL2)
      as (s3 & E3 & D3 & O3 & K3 & S3 & _).
    rewrite E3.
    destruct (IH s3 _ D3) as (s' & recs & E & Dk & Ik & Sk & Ok' & Kk).
    exists s', (Record user_id nm em st :: recs).
    split; [exact E |]. rewrite <- app_assoc in Dk. split; [exact Dk |].
    split; [cbn [map line_id]; rewrite Ik; reflexivity |].
    split; [| split; [| congruence]].
    + rewrite Sk, S3, S2, S1, <- app_assoc, <- map_app. do 2 f_equal.
      destruct tq; [reflexivity |]. destruct thr as [t |]; [| reflexivity].
      cbn [filter]. destruct (user_id mod t =? 0); reflexivity.
    + intros q Hq. rewrite (Ok' q Hq), (O3 q Hq), D2, D1. reflexivity.
Qed.

Lemma firstn_seq_min : forall k a m,
  firstn k (seq a m) = seq a (Nat.min k m).
Proof.
  induction k as [| k IH]; intros a [| m]; simpl; try reflexivity.
  rewrite IH. reflexivity.
Qed.

Lemma firstn_range (k : nat) (n : Z) :
  (k <= Z.to_nat n)%nat ->
  firstn k (range 1 (n + 1)) = range 1 (Z.of_nat k + 1).
Proof.
  intro H. unfold range. rewrite firstn_map, firstn_seq_min.
  replace (Z.to_nat (n + 1 - 1)) with (Z.to_nat n) by lia.
  replace (Z.to_nat (Z.of_nat k + 1 - 1)) with k by lia.
  rewrite Nat.min_l by exact H. reflexivity.
Qed.

Lemma length_range (n : Z) : List.length (range 1 (n + 1)) = Z.to_nat n.
Proof.
  unfold range. rewrite length_map, length_seq. f_equal. lia.
Qed.

(** The file once it is opened and the header is written. *)
Lemma open_and_header (p : string) (s : @State F stamp) :
  locked s p = false ->
  exists s1 s2,
    open_w p s = (Ok tt, s1)
    /\ writerow p (Header ["user_id"; "name"; "email"; "signup_date"]%string) s1
       = (Ok tt, s2)
    /\ disk s2 p
       = Some [Header ["user_id"; "name"; "email"; "signup_date"]%string]
    /\ (forall q, String.eqb q p = false -> disk s2 q = disk s q)
    /\ locked s2 = locked s /\ screen s2 = screen s /\ faker s2 = faker s.
Proof.
  intro H. unfold open_w. rewrite H. unfold set_file at 1.
  eexists. eexists. split; [reflexivity |].
  unfold writerow, set_file. cbn [disk locked screen faker].
  rewrite String.eqb_refl. split; [reflexivity |].
  cbn [disk locked screen faker]. rewrite String.eqb_refl.
  split; [reflexivity |]. split; [| auto].
  intros q Hq. rewrite Hq. reflexivity.
Qed.

(** X10: with tqdm, or for ten records and more, or for no record at
    all, and a Faker that answers, [write_to_csv] returns, and the file
    holds the header followed by [num_records] records (none when the
    count is not positive) numbered from 1 in increasing order.  Without
    tqdm a progress line is printed for each identifier that is a
    multiple of [num_records // 10], then the closing line; no other file
    is touched. *)
Theorem write_to_csv_writes_every_record
    (USE_TQDM : bool) (csv_filename : string) (num_records : Z)
    (start_date end_date : string) (s : @State F stamp) :
  dependable lib ->
  locked s csv_filename = false ->
  USE_TQDM = true \/ num_records <= 0 \/ 10 <= num_records ->
  exists recs : list (@Line stamp),
    fst (write_to_csv USE_TQDM csv_filename num_records start_date end_date s)
    = Ok tt
    /\ disk (snd (write_to_csv USE_TQDM csv_filename num_records start_date
                    end_date s)) csv_filename
       = Some (Header ["user_id"; "name"; "email"; "signup_date"]%string
               :: recs)
    /\ map line_id recs = map Some (range 1 (num_records + 1))
    /\ List.length recs = Z.to_nat num_records
    /\ screen (snd (write_to_csv USE_TQDM csv_filename num_records start_date
                      end_date s))
       = (screen s
          ++ map (fun i => Generated i num_records)
               (progress_ids USE_TQDM num_records)
          ++ [FileGenerated csv_filename num_records])%list
    /\ (forall other, String.eqb other csv_filename = false ->
          disk (snd (write_to_csv USE_TQDM csv_filename num_records start_date
                       end_date s)) other
          = disk s other).
Proof.
  intros Hdep Hl Hn.
  destruct (open_and_header csv_filename s Hl)
    as (s1 & s2 & E1 & E2 & D2 & O2 & K2 & S2 & _).
  assert (Hloop : exists s3 (recs : list (@Line stamp)),
    for_user_id USE_TQDM
      (if USE_TQDM then None else Some (num_records / 10))
      csv_filename num_records start_date end_date
      (range 1 (num_records + 1)) s2 = (Ok tt, s3)
    /\ disk s3 csv_filename
       = Some ([Header ["user_id"; "name"; "email"; "signup_date"]%string]
               ++ recs)
    /\ map line_id recs = map Some (range 1 (num_records + 1))
    /\ screen s3
       = (screen s2
          ++ map (fun i => Generated i num_records)
               (progress_ids USE_TQDM num_records))%list
    /\ (forall q, String.eqb q csv_filename = false -> disk s3 q = disk s2 q)).
  { destruct (Z_le_gt_dec num_records 0) as [Hle | Hgt].
    - assert (Hr : range 1 (num_records + 1) = []).
      { unfold range. replace (Z.to_nat (num_records + 1 - 1)) with 0%nat by lia.
        reflexivity. }
      exists s2, []. unfold progress_ids. rewrite Hr. cbn [for_user_id ret].
      split; [reflexivity |]. split; [exact D2 |]. split; [reflexivity |].
      split; [| auto]. destruct USE_TQDM; cbn [filter map];
        rewrite app_nil_r; reflexivity.
    - assert (Hthr : USE_TQDM = true
                     \/ exists t, (if USE_TQDM then None
                                   else Some (num_records / 10)) = Some t
                                  /\ t <> 0).
      { destruct USE_TQDM; [left; reflexivity | right].
        eexists. split; [reflexivity |].
        destruct Hn as [Hn | [Hn | Hn]]; [discriminate | lia |].
        assert (1 <= num_records / 10)
          by (apply Z.div_le_lower_bound; lia).
        lia. }
      destruct (for_user_id_completes USE_TQDM _ csv_filename num_records
                  start_date end_date Hdep Hthr (range 1 (num_records + 1))
                  s2 _ D2) as (s3 & recs & E & D & I & Sc & O & _).
      exists s3, recs. split; [exact E |]. split; [exact D |].
      split; [exact I |]. split; [| exact O].
      rewrite Sc. unfold progress_ids. destruct USE_TQDM; reflexivity. }
  destruct Hloop as (s3 & recs & E3 & D3 & I3 & S3 & O3).
  assert (E : write_to_csv USE_TQDM csv_filename num_records start_date
                end_date s
              = (Ok tt, snd (print (FileGenerated csv_filename num_records)
                               s3))).
  { unfold write_to_csv, try_except_2.
    unfold bind at 1. rewrite E1. unfold bind at 1. rewrite E2.
    cbv zeta. unfold bind at 1. rewrite E3. reflexivity. }
  exists recs. rewrite E. cbn [fst snd print disk screen].
  split; [reflexivity |]. split; [exact D3 |]. split; [exact I3 |].
  split; [| split].
  - rewrite <- (length_map line_id), I3, length_map. apply length_range.
  - rewrite S3, S2, <- app_assoc. reflexivity.
  - intros q Hq. rewrite (O3 q Hq). apply O2. exact Hq.
Qed.

(** X11: whatever Faker does and however the call ends, a file that
    could be opened holds the header followed by the records written so
    far, numbered 1, 2, 3 and so on without a gap, never more than
    [num_records] of them, and no other file is touched.  The call
    returns, also when an [IOError] or a [ValueError] stopped the loop
    (the two [except] clauses print and go on), or raises an exception of
    another class. *)
Theorem write_to_csv_leaves_numbered_records
    (USE_TQDM : bool) (csv_filename : string) (num_records : Z)
    (start_date end_date : string) (s : @State F stamp) :
  locked s csv_filename = false ->
  exists recs : list (@Line stamp),
    disk (snd (write_to_csv USE_TQDM csv_filename num_records start_date
                 end_date s)) csv_filename
    = Some (Header ["user_id"; "name"; "email"; "signup_date"]%string :: recs)
    /\ map line_id recs
       = map Some (range 1 (Z.of_nat (List.length recs) + 1))
    /\ (List.length recs <= Z.to_nat num_records)%nat
    /\ (fst (write_to_csv USE_TQDM csv_filename num_records start_date
                end_date s) = Ok tt
        \/ exists e,
             fst (write_to_csv USE_TQDM csv_filename num_records start_date
                    end_date s) = Raise e
             /\ is_IOError e = false /\ is_ValueError e = false)
    /\ (forall other, String.eqb other csv_filename = false ->
          disk (snd (write_to_csv USE_TQDM csv_filename num_records start_date
                       end_date s)) other
          = disk s other).
Proof.
  intro Hl.
  destruct (open_and_header csv_filename s Hl)
    as (s1 & s2 & E1 & E2 & D2 & O2 & _).
  destruct (for_user_id USE_TQDM
              (if USE_TQDM then None else Some (num_records / 10))
              csv_filename num_records start_date end_date
              (range 1 (num_records + 1)) s2) as [r s3] eqn:E3.
  destruct (for_user_id_prefix _ _ _ _ _ _ _ _ _ _ _ E3 D2)
    as (k & recs & D3 & I3 & L3 & _ & O3 & _).
  rewrite length_range in L3.
  assert (Hk : List.length recs = k).
  { rewrite <- (length_map line_id), I3, length_map, length_firstn,
      length_range. lia. }
  assert (Hfiles : forall s4 : @State F stamp,
            disk s4 = disk s3 ->
            disk s4 csv_filename
            = Some (Header ["user_id"; "name"; "email"; "signup_date"]%string
                    :: recs)
            /\ (forall other, String.eqb other csv_filename = false ->
                  disk s4 other = disk s other)).
  { intros s4 ->. split; [exact D3 |].
    intros q Hq. rewrite (O3 q Hq). apply O2. exact Hq. }
  exists recs.
  assert (E : write_to_csv USE_TQDM csv_filename num_records start_date
                end_date s
              = match r with
                | Ok _ => print (FileGenerated csv_filename num_records) s3
                | Raise e =>
                    if is_IOError e
                    then print (IoErrorWriting csv_filename e) s3
                    else if is_ValueError e
                         then print (ValueErrorInData e) s3
                         else (Raise e, s3)
                end).
  { unfold write_to_csv, try_except_2.
    unfold bind at 1. rewrite E1. unfold bind at 1. rewrite E2.
    cbv zeta. unfold bind at 1. rewrite E3. destruct r; reflexivity. }
  rewrite E, Hk, (firstn_range k num_records L3) in *.
  destruct r as [[] | e]; [| destruct (is_IOError e) eqn:Ei;
                             [| destruct (is_ValueError e) eqn:Ev]];
    cbn [print fst snd];
    (split; [apply Hfiles; reflexivity |]);
    (split; [exact I3 |]); (split; [exact L3 |]);
    (split; [| apply Hfiles; reflexivity]); try (left; reflexivity).
  right. exists e. auto.
Qed.

(** X12: a file that cannot be opened is not an error for the caller.
    [write_to_csv] prints the I/O error and returns; no file is changed
    and Faker is not used. *)
Theorem write_to_csv_reports_a_locked_file
    (USE_TQDM : bool) (csv_filename : string) (num_records : Z)
    (start_date end_date : string) (s : @State F stamp) :
  locked s csv_filename = true ->
  exists e,
    is_IOError e = true
    /\ write_to_csv USE_TQDM csv_filename num_records start_date end_date s
       = (Ok tt,
          {| disk := disk s; locked := locked s;
             screen := screen s ++ [IoErrorWriting csv_filename e];
             faker := faker s |}).
Proof.
  intro Hl. eexists. split; [| unfold write_to_csv, try_except_2].
  2:{ unfold bind at 1. unfold open_w. rewrite Hl. reflexivity. }
  reflexivity.
Qed.

End Writer.

Lemma write_to_csv_writes_every_record_witness :
  exists recs,
    Generator.disk (snd (Generator.write_to_csv (lib := counting_faker) false "data.csv"
                 20 "-5y" "now"
                 {| Generator.disk := fun _ => None;
                    Generator.locked := fun _ => false;
                    Generator.screen := [];
                    Generator.faker := 0%nat |})) "data.csv"
    = Some (Generator.Header ["user_id"; "name"; "email"; "signup_date"]%string
            :: recs)
    /\ List.length recs = 20%nat.
Proof.
  destruct (write_to_csv_writes_every_record (lib := counting_faker)
              false "data.csv" 20 "-5y" "now"
              {| Generator.disk := fun _ => None;
                 Generator.locked := fun _ => false;
                 Generator.screen := [];
                 Generator.faker := 0%nat |})
    as (recs & _ & D & _ & L & _).
  - split; intros; do 2 eexists; reflexivity.
  - reflexivity.
  - right. right. lia.
  - exists recs. split; [exact D | exact L].
Defined.

Lemma write_to_csv_leaves_numbered_records_witness :
  exists recs,
    Generator.disk (snd (Generator.write_to_csv (lib := counting_faker) false "data.csv"
                 5 "-5y" "now"
                 {| Generator.disk := fun _ => None;
                    Generator.locked := fun _ => false;
                    Generator.screen := [];
                    Generator.faker := 0%nat |})) "data.csv"
    = Some (Generator.Header ["user_id"; "name"; "email"; "signup_date"]%string
            :: recs)
    /\ (List.length recs <= 5)%nat.
Proof.
  destruct (write_to_csv_leaves_numbered_records (lib := counting_faker)
              false "data.csv" 5 "-5y" "now"
              {| Generator.disk := fun _ => None;
                 Generator.locked := fun _ => false;
                 Generator.screen := [];
                 Generator.faker := 0%nat |} eq_refl)
    as (recs & D & _ & L & _).
  exists recs. split; [exact D | exact L].
Defined.

Lemma write_to_csv_reports_a_locked_file_witness :
  fst (Generator.write_to_csv (lib := counting_faker) true "data.csv" 20
         "-5y" "now"
         {| Generator.disk := fun _ => None;
            Generator.locked := fun _ => true;
            Generator.screen := [];
            Generator.faker := 0%nat |})
  = Ok tt.
Proof.
  destruct (write_to_csv_reports_a_locked_file (lib := counting_faker)
              true "data.csv" 20 "-5y" "now"
              {| Generator.disk := fun _ => None;
                 Generator.locked := fun _ => true;
                 Generator.screen := [];
                 Generator.faker := 0%nat |} eq_refl) as (e & _ & E).
  rewrite E. reflexivity.
Defined.

(** ** The generator: the functions around the writer *)

Section CommandLine.
Import Generator Cli.
Local Open Scope Z_scope.
Context {F stamp : Type} {lib : FakerLib F stamp} {module : FakerModule F}.

Lemma generate_without_Faker
    (USE_TQDM : bool) (confirm csv_filename : string) (num_records : Z)
    (start_date end_date : string) (locale : list string)
    (c : @Console F stamp) (e : Exception) :
  Faker locale = Raise e ->
  generate_fake_user_csv USE_TQDM confirm csv_filename num_records
    start_date end_date locale c
  = (Raise e, c).
Proof.
  intro HF. unfold generate_fake_user_csv. unfold bind at 1.
  unfold new_Faker. rewrite HF. reflexivity.
Qed.

Lemma generate_on_a_new_file
    (USE_TQDM : bool) (confirm csv_filename : string) (num_records : Z)
    (start_date end_date : string) (locale : list string)
    (c : @Console F stamp) (fake : F) :
  Faker locale = Ok fake ->
  disk (base c) csv_filename = None ->
  generate_fake_user_csv USE_TQDM confirm csv_filename num_records
    start_date end_date locale c
  = on_base (write_to_csv USE_TQDM csv_filename num_records start_date
               end_date) (holding fake c).
Proof.
  intros HF HL.
  unfold generate_fake_user_csv, check_and_confirm_file_overwrite, path_exists.
  unfold bind, note, ret, new_Faker. rewrite HF.
  cbn [holding base disk]. rewrite HL. reflexivity.
Qed.

(** X13: the generator writes over a file only with the consent of the
    operator, and asks nothing before Faker is built.  When Faker raises
    for the locales given, the call raises that exception and nothing
    was asked, printed or written.  Otherwise, when the file exists and
    the reply is not [y], the question and the line that the creation is
    aborted are printed and the call returns: every file and the screen
    of the writer are what they were, and the new generator has not been
    used.  When the file does not exist nothing is asked, and when the
    reply is [y] the question is printed: in both cases the rest of the
    call is the call of [write_to_csv] with the new generator. *)
Theorem generate_fake_user_csv_asks_before_overwriting
    (USE_TQDM : bool) (confirm csv_filename : string) (num_records : Z)
    (start_date end_date : string) (locale : list string)
    (c : @Console F stamp) :
  (forall e, Faker locale = Raise e ->
             generate_fake_user_csv USE_TQDM confirm csv_filename num_records
               start_date end_date locale c
             = (Raise e, c))
  /\ (forall fake L,
        Faker locale = Ok fake ->
        disk (base c) csv_filename = Some L ->
        String.eqb confirm "y" = false ->
        generate_fake_user_csv USE_TQDM confirm csv_filename num_records
          start_date end_date locale c
        = (Ok tt,
           {| base := {| disk := disk (base c); locked := locked (base c);
                         screen := screen (base c); faker := fake |};
              notes := notes c ++ [Asked csv_filename; Aborted] |}))
  /\ (forall fake,
        Faker locale = Ok fake ->
        disk (base c) csv_filename = None ->
        generate_fake_user_csv USE_TQDM confirm csv_filename num_records
          start_date end_date locale c
        = on_base (write_to_csv USE_TQDM csv_filename num_records start_date
                     end_date)
            {| base := {| disk := disk (base c); locked := locked (base c);
                          screen := screen (base c); faker := fake |};
               notes := notes c |})
  /\ (forall fake L,
        Faker locale = Ok fake ->
        disk (base c) csv_filename = Some L ->
        String.eqb confirm "y" = true ->
        generate_fake_user_csv USE_TQDM confirm csv_filename
          num_records start_date end_date locale c
        = on_base (write_to_csv USE_TQDM csv_filename num_records
                     start_date end_date)
            {| base := {| disk := disk (base c); locked := locked (base c);
                          screen := screen (base c); faker := fake |};
               notes := notes c ++ [Asked csv_filename] |}).
Proof.
  split; [intros e HF; apply generate_without_Faker; exact HF |].
  split; [| split].
  - intros fake L HF HL Hc.
    unfold generate_fake_user_csv, check_and_confirm_file_overwrite,
      path_exists.
    unfold bind, note, ret, new_Faker. rewrite HF.
    cbn [holding base disk notes]. rewrite HL, Hc.
    cbn [negb base notes]. rewrite <- app_assoc. reflexivity.
  - intros fake HF HL. apply generate_on_a_new_file; assumption.
  - intros fake L HF HL Hc.
    unfold generate_fake_user_csv, check_and_confirm_file_overwrite,
      path_exists.
    unfold bind, note, ret, new_Faker. rewrite HF.
    cbn [holding base disk notes]. rewrite HL, Hc. reflexivity.
Qed.

Lemma write_to_csv_small_count (csv_filename : string) (num_records : Z)
    (start_date end_date : string) (s : @State F stamp) :
  1 <= num_records < 10 ->
  locked s csv_filename = false ->
  exists msg s',
    write_to_csv false csv_filename num_records start_date end_date s
    = (Raise (ZeroDivisionError msg), s')
    /\ disk s' csv_filename
       = Some [Header ["user_id"; "name"; "email"; "signup_date"]%string]
    /\ faker s' = faker s /\ screen s' = screen s.
Proof.
  intros Hn Hl.
  destruct (open_and_header csv_filename s Hl)
    as (s1 & s2 & E1 & E2 & D2 & _ & _ & S2 & K2).
  assert (Hdiv : num_records / 10 = 0) by (apply Z.div_small; lia).
  assert (Hr : exists rest, range 1 (num_records + 1) = 1 :: rest).
  { unfold range.
    replace (Z.to_nat (num_records + 1 - 1))
      with (S (Z.to_nat (num_records - 1))) by lia.
    eexists. reflexivity. }
  destruct Hr as [rest Hr].
  do 2 eexists. split.
  - unfold write_to_csv, try_except_2.
    unfold bind at 1. rewrite E1. unfold bind at 1. rewrite E2.
    cbv zeta. rewrite Hdiv, Hr. cbn [for_user_id negb].
    unfold bind, py_mod, raise. cbn [Z.eqb is_IOError is_ValueError].
    reflexivity.
  - auto.
Qed.

(** X14: the script reports every error of the generation and still ends
    with status 0.  An exception that leaves [generate_fake_user_csv] is
    printed, by the first [except] clause when it is a [ValueError] and
    by the second otherwise, and the script runs to its end.  So when
    Faker raises for the locales given, that exception is what is
    printed, and no file was created nor anything asked.  And when Faker
    is built, for a count from 1 to 9 without tqdm on a new file, the
    division by zero of [write_to_csv] ends as one printed line, status 0
    and a file that holds the header only. *)
Theorem generator_main_prints_errors_and_ends_normally
    (USE_TQDM : bool) (confirm csv_filename : string) (num_records : Z)
    (start_date end_date : string) (locale : list string)
    (c : @Console F stamp) (e : Exception) (c' : @Console F stamp) :
  generate_fake_user_csv USE_TQDM confirm csv_filename num_records start_date
    end_date locale c = (Raise e, c') ->
  is_Exception e = true ->
  Cli.main USE_TQDM confirm csv_filename num_records start_date end_date
    locale c
  = (Ok tt,
     {| base := base c';
        notes := notes c' ++ [if is_ValueError e then ArgumentError e
                              else UnexpectedError e] |})
  /\ exit_status (fst (Cli.main USE_TQDM confirm csv_filename num_records
                         start_date end_date locale c)) = 0
  /\ (forall e0, Faker locale = Raise e0 -> e = e0 /\ c' = c)
  /\ (forall fake,
        Faker locale = Ok fake ->
        USE_TQDM = false ->
        1 <= num_records < 10 ->
        disk (base c) csv_filename = None ->
        locked (base c) csv_filename = false ->
        (exists msg, e = ZeroDivisionError msg)
        /\ notes c' = notes c
        /\ disk (base c') csv_filename
           = Some [Header ["user_id"; "name"; "email"; "signup_date"]%string]).
Proof.
  intros E He.
  assert (Em : Cli.main USE_TQDM confirm csv_filename num_records start_date
                 end_date locale c
               = (Ok tt,
                  {| base := base c';
                     notes := notes c' ++ [if is_ValueError e
                                           then ArgumentError e
                                           else UnexpectedError e] |})).
  { unfold Cli.main, try_except_2. rewrite E, He.
    destruct (is_ValueError e); reflexivity. }
  split; [exact Em |]. split; [rewrite Em; reflexivity |]. split.
  - intros e0 HF.
    rewrite (generate_without_Faker USE_TQDM confirm csv_filename num_records
               start_date end_date locale c e0 HF) in E.
    injection E as <- <-. split; reflexivity.
  - intros fake HF -> Hn Hd Hl.
    rewrite (generate_on_a_new_file false confirm csv_filename num_records
               start_date end_date locale c fake HF Hd) in E.
    unfold on_base in E.
    destruct (write_to_csv_small_count csv_filename num_records start_date
                end_date (base (holding fake c)) Hn Hl)
      as (msg & s' & Ew & D & _).
    rewrite Ew in E. injection E as <- <-. cbn [base notes]. eauto.
Qed.

End CommandLine.

Lemma generator_main_prints_errors_and_ends_normally_witness :
  exit_status
    (fst (Cli.main (lib := counting_faker) (module := fresh_counter)
            false "n" "data.csv" 5 "-5y" "now" ["en_US"]%string
            {| Cli.base := {| Generator.disk := fun _ => None;
                              Generator.locked := fun _ => false;
                              Generator.screen := [];
                              Generator.faker := 0%nat |};
               Cli.notes := [] |}))
  = 0%Z.
Proof.
  exact (proj1 (proj2 (generator_main_prints_errors_and_ends_normally
                         (lib := counting_faker) (module := fresh_counter)
                         false "n" "data.csv" 5
                         "-5y" "now" ["en_US"]%string
                         {| Cli.base := {| Generator.disk := fun _ => None;
                                           Generator.locked := fun _ => false;
                                           Generator.screen := [];
                                           Generator.faker := 0%nat |};
                            Cli.notes := [] |}
                         (ZeroDivisionError "integer modulo by zero")
                         _ eq_refl eq_refl))).
Defined.

(** ** The shape of a validated email *)

Section Emails.
Local Open Scope list_scope.

Lemma count_no_at w :
  forallb not_at w = true -> count_occ ascii_dec w "@"%char = 0%nat.
Proof.
  induction w as [| c w IH]; simpl; intro H; [reflexivity |].
  apply andb_true_iff in H as [Hc Hw]. unfold not_at in Hc.
  apply negb_true_iff, Ascii.eqb_neq in Hc.
  destruct (ascii_dec c "@"); [congruence | apply IH; exact Hw].
Qed.

(** X15: what validation asks of an email.  An email that passes has
    exactly one [@], which is not its first character; at least three
    characters follow the [@], one of them a dot that is neither the
    first nor the last of them; so it has five characters at least. *)
Theorem validated_email_has_one_at (s : string) :
  matches email_pattern (chars s) = true ->
  count_occ ascii_dec (chars s) "@"%char = 1%nat
  /\ (exists c rest, chars s = c :: rest /\ c <> "@"%char)
  /\ (exists x y, after_at (chars s) = x ++ "."%char :: y
                  /\ x <> [] /\ y <> [])
  /\ (3 <= List.length (after_at (chars s)))%nat
  /\ (5 <= List.length (chars s))%nat.
Proof.
  intro H. apply email_pattern_shape in H
    as (l & x & y & E & Hl & Hx & Hy & Pl & Px & Py).
  rewrite E, (after_at_app _ _ Pl). split; [| split; [| split; [| split]]].
  - rewrite count_occ_app, (count_no_at _ Pl). cbn [count_occ].
    destruct (ascii_dec "@" "@"); [| congruence].
    rewrite count_occ_app, (count_no_at _ Px). cbn [count_occ].
    destruct (ascii_dec "." "@"); [discriminate |].
    rewrite (count_no_at _ Py). reflexivity.
  - destruct l as [| c l]; [congruence |]. exists c. eexists.
    split; [reflexivity |]. cbn [forallb] in Pl.
    apply andb_true_iff in Pl as [Hc _]. unfold not_at in Hc.
    apply negb_true_iff, Ascii.eqb_neq in Hc. exact Hc.
  - exists x, y. auto.
  - destruct x; [congruence |]. destruct y; [congruence |].
    rewrite length_app. simpl. lia.
  - destruct l; [congruence |]. destruct x; [congruence |].
    destruct y; [congruence |]. rewrite !length_app. simpl.
    rewrite length_app. simpl. lia.
Qed.

Lemma validated_email_has_one_at_witness :
  count_occ ascii_dec (chars "ann@example.com") "@"%char = 1%nat.
Proof.
  exact (proj1 (validated_email_has_one_at "ann@example.com" eq_refl)).
Defined.

End Emails.
